(** * Fireenrich API validation script: a shallow embedding of
      [validate_api.py] and the properties of its check runner.

    The script is linear I/O: it reads two credentials, sends four HTTP
    requests, classifies each response and prints a tally.  The embedding
    keeps the effects explicit: every [print], every HTTP request and every
    [time.sleep] is an event of a trace, and a computation ends by
    returning a value, by raising an [Exception], or by [sys.exit].

    What stays outside the embedding: the installation of missing packages
    at import time, and [load_dotenv()], whose effect is part of the
    environment the credentials are read from.  Standard output takes
    every line, so [print] does not raise. *)

From Stdlib Require Import ZArith NArith List Bool Lia.
From Stdlib Require Import Strings.String Strings.Ascii Strings.Byte.
From Stdlib Require Import DecimalString.
From Stdlib Require Import Floats.SpecFloat.
Import ListNotations.

Set Warnings "-register-all".

Local Open Scope Z_scope.

(* ================================================================== *)
(** ** Python data *)
(* ================================================================== *)

(** A Python [str] is a sequence of Unicode code points. *)
Definition pystr := list N.

(** Python [bytes]. *)
Definition pybytes := list byte.

(** An ASCII literal of the source, as a [str]. *)
Definition lit (s : string) : pystr :=
  map N_of_ascii (list_ascii_of_string s).

Fixpoint pystr_eqb (a b : pystr) : bool :=
  match a, b with
  | [], [] => true
  | x :: a', y :: b' => N.eqb x y && pystr_eqb a' b'
  | _, _ => false
  end.

(** [s.startswith(prefix)] *)
Fixpoint startswith (s prefix : pystr) : bool :=
  match prefix, s with
  | [], _ => true
  | p :: prefix', c :: s' => N.eqb c p && startswith s' prefix'
  | _ :: _, [] => false
  end.

(** [needle in s] on two strings: [needle] occurs as a substring. *)
Fixpoint str_contains (needle s : pystr) : bool :=
  startswith s needle ||
  match s with
  | [] => false
  | _ :: s' => str_contains needle s'
  end.

(** [str(n)] for an [int]. *)
Definition str_int (z : Z) : pystr :=
  lit (NilZero.string_of_int (Z.to_int z)).

(** [s * n] for a [str]. *)
Fixpoint str_mul (s : pystr) (n : nat) : pystr :=
  match n with
  | O => []
  | S n' => s ++ str_mul s n'
  end.

(** The values [json.loads] produces, which are also the values the script
    passes as request bodies.  A [dict] keeps its items in insertion
    order. *)
Inductive pyval :=
| PNone
| PBool (b : bool)
| PInt (z : Z)
| PFloat (f : spec_float)
| PStr (s : pystr)
| PList (l : list pyval)
| PDict (d : list (pystr * pyval)).

(** The names of the types, as they show in error messages. *)
Inductive pytype :=
| TNoneType | TBool | TInt | TFloat | TStr | TList | TDict.

Definition type_of (v : pyval) : pytype :=
  match v with
  | PNone => TNoneType
  | PBool _ => TBool
  | PInt _ => TInt
  | PFloat _ => TFloat
  | PStr _ => TStr
  | PList _ => TList
  | PDict _ => TDict
  end.

(** Truth value testing: [None], [False], zero of a numeric type and the
    empty string, list and dict are false; every other value is true (a
    NaN and the infinities included). *)
Definition truthy (v : pyval) : bool :=
  match v with
  | PNone => false
  | PBool b => b
  | PInt z => negb (Z.eqb z 0)
  | PFloat (S754_zero _) => false
  | PFloat _ => true
  | PStr [] => false
  | PStr _ => true
  | PList [] => false
  | PList _ => true
  | PDict [] => false
  | PDict _ => true
  end.

(** The item of a dict under a key. *)
Fixpoint dict_lookup (d : list (pystr * pyval)) (k : pystr) : option pyval :=
  match d with
  | [] => None
  | (k', v) :: d' => if pystr_eqb k' k then Some v else dict_lookup d' k
  end.

(** [x == PStr k] for a str [k]: a str equals only an equal str. *)
Definition is_str (k : pystr) (x : pyval) : bool :=
  match x with
  | PStr s => pystr_eqb s k
  | _ => false
  end.

(** Truth value of a credential read by [os.getenv]: [None] when the
    variable is unset, else its value. *)
Definition env_truthy (v : option pystr) : bool :=
  match v with
  | None => false
  | Some [] => false
  | Some (_ :: _) => true
  end.

(* ================================================================== *)
(** ** UTF-8 decoding: [bytes.decode("utf-8")] *)
(* ================================================================== *)

Local Open Scope N_scope.

Definition is_cont (b : N) : bool := (0x80 <=? b) && (b <=? 0xBF).

Definition in_range (lo hi b : N) : bool := (lo <=? b) && (b <=? hi).

(** The range allowed for the second byte after the lead byte [b0] of a
    three- or four-byte sequence: it excludes the overlong forms, the
    surrogates and the code points above U+10FFFF. *)
Definition second_range (b0 : N) : N * N :=
  if b0 =? 0xE0 then (0xA0, 0xBF)
  else if b0 =? 0xED then (0x80, 0x9F)
  else if b0 =? 0xF0 then (0x90, 0xBF)
  else if b0 =? 0xF4 then (0x80, 0x8F)
  else (0x80, 0xBF).

Definition cont_bits (b : N) : N := N.land b 0x3F.

(** Strict decoding; [None] stands for the [UnicodeDecodeError]. *)
Fixpoint utf8_decode (bs : list byte) : option pystr :=
  match bs with
  | [] => Some []
  | c0 :: r1 =>
    let b0 := Byte.to_N c0 in
    if b0 <? 0x80 then option_map (cons b0) (utf8_decode r1)
    else
      match r1 with
      | [] => None
      | c1 :: r2 =>
        let b1 := Byte.to_N c1 in
        if in_range 0xC2 0xDF b0 then
          if is_cont b1
          then option_map
                 (cons (N.lor (N.shiftl (N.land b0 0x1F) 6) (cont_bits b1)))
                 (utf8_decode r2)
          else None
        else
          match r2 with
          | [] => None
          | c2 :: r3 =>
            let b2 := Byte.to_N c2 in
            let (lo, hi) := second_range b0 in
            if in_range 0xE0 0xEF b0 then
              if in_range lo hi b1 && is_cont b2
              then option_map
                     (cons (N.lor (N.shiftl (N.land b0 0x0F) 12)
                              (N.lor (N.shiftl (cont_bits b1) 6)
                                     (cont_bits b2))))
                     (utf8_decode r3)
              else None
            else
              match r3 with
              | [] => None
              | c3 :: r4 =>
                let b3 := Byte.to_N c3 in
                if in_range 0xF0 0xF4 b0 then
                  if in_range lo hi b1 && is_cont b2 && is_cont b3
                  then option_map
                         (cons (N.lor (N.shiftl (N.land b0 0x07) 18)
                                  (N.lor (N.shiftl (cont_bits b1) 12)
                                     (N.lor (N.shiftl (cont_bits b2) 6)
                                            (cont_bits b3)))))
                         (utf8_decode r4)
                  else None
                else None
              end
          end
      end
  end.

Local Close Scope N_scope.

(** Whether decoding a line raises. *)
Definition undecodable (line : pybytes) : bool :=
  match utf8_decode line with
  | None => true
  | Some _ => false
  end.

(* ================================================================== *)
(** ** The HTTP client, exceptions and the trace of effects *)
(* ================================================================== *)

Inductive http_method := GET | POST.

(** The arguments of one [requests.get] or [requests.post] call.  A header
    value is what the script passes: a credential, which [os.getenv] may
    have left [None]. *)
Record request := mk_request {
  req_method : http_method;
  req_url : pystr;
  req_headers : list (pystr * option pystr);
  req_json : option pyval
}.

(** What the script reads of a [requests.Response].  [json] is the parsed
    body, [None] when [response.json()] raises.  The requests are sent
    without [stream=True], so the body is in memory when the call returns
    and [response.iter_lines()] yields its lines, as [bytes], one by
    one. *)
Record response := mk_response {
  status_code : Z;
  json : option pyval;
  text : pystr;
  iter_lines : list pybytes
}.

(** The subclasses of [Exception] a check can meet. *)
Inductive exn :=
| RequestException (detail : pystr)
    (* raised by requests.get/post: connection refused, timeout, ... *)
| JSONDecodeError
    (* raised by response.json() *)
| UnicodeDecodeError (input : pybytes)
    (* raised by bytes.decode *)
| AttributeError (ty : pytype) (attr : pystr)
    (* 'ty' object has no attribute 'attr' *)
| NotIterable (ty : pytype)
    (* TypeError: argument of type 'ty' is not iterable *)
| BadSubscript (ty : pytype)
    (* TypeError: v[k] with a str k on a 'ty' that is not a dict *)
| NoLen (ty : pytype)
    (* TypeError: object of type 'ty' has no len() *)
| KeyError (key : pystr).

(** The answer of the HTTP client to a request: the call raises, or
    returns a response. *)
Definition http_client := request -> exn + response.

Inductive event :=
| Print (line : pystr)
| Http (r : request)
| Sleep (seconds : Z).

(** How a computation ends.  [Exit] is [SystemExit], raised by [sys.exit]:
    it is not an [Exception], and [except Exception] lets it through. *)
Inductive outcome (A : Type) :=
| Ret (a : A)
| Exc (e : exn)
| Exit (code : Z).

Arguments Ret {A} a.
Arguments Exc {A} e.
Arguments Exit {A} code.

(** A computation: the events it emits, in order, and how it ends. *)
Definition M (A : Type) : Type := list event * outcome A.

Definition ret {A} (a : A) : M A := ([], Ret a).

Definition bind {A B} (m : M A) (f : A -> M B) : M B :=
  match m with
  | (t, Ret a) => let (t', o) := f a in (t ++ t', o)
  | (t, Exc e) => (t, Exc e)
  | (t, Exit c) => (t, Exit c)
  end.

Definition raise {A} (e : exn) : M A := ([], Exc e).

Definition emit (ev : event) : M unit := ([ev], Ret tt).

(** [try: m  except Exception as e: handler e] *)
Definition try_except {A} (m : M A) (handler : exn -> M A) : M A :=
  match m with
  | (t, Exc e) => let (t', o) := handler e in (t ++ t', o)
  | _ => m
  end.

Declare Scope py_scope.
Delimit Scope py_scope with py.

Notation "x <- c1 ;; c2" := (bind c1 (fun x => c2))
  (at level 100, c1 at next level, right associativity) : py_scope.
Notation "c1 ;; c2" := (bind c1 (fun _ => c2))
  (at level 100, right associativity) : py_scope.

Local Open Scope py_scope.

Definition trace {A} (m : M A) : list event := fst m.
Definition result {A} (m : M A) : outcome A := snd m.

Definition print (s : pystr) : M unit := emit (Print s).
Definition time_sleep (seconds : Z) : M unit := emit (Sleep seconds).
Definition sys_exit {A} (code : Z) : M A := ([], Exit code).

(** The HTTP requests of a trace, in the order they were sent. *)
Fixpoint requests_sent (t : list event) : list request :=
  match t with
  | [] => []
  | Http r :: t' => r :: requests_sent t'
  | _ :: t' => requests_sent t'
  end.

(** The lines printed, in order. *)
Fixpoint printed (t : list event) : list pystr :=
  match t with
  | [] => []
  | Print s :: t' => s :: printed t'
  | _ :: t' => printed t'
  end.

(** *** Operations on Python values *)

(** [v.get(k, default)]: only a dict has the method. *)
Definition py_get (v : pyval) (k : pystr) (default : pyval) : M pyval :=
  match v with
  | PDict d =>
    match dict_lookup d k with
    | Some x => ret x
    | None => ret default
    end
  | _ => raise (AttributeError (type_of v) (lit "get"))
  end.

(** [k in v] for a str [k]: a key of a dict, an item of a list, a
    substring of a str; the other types are not iterable. *)
Definition py_in (k : pystr) (v : pyval) : M bool :=
  match v with
  | PDict d =>
    match dict_lookup d k with
    | Some _ => ret true
    | None => ret false
    end
  | PList l => ret (existsb (is_str k) l)
  | PStr s => ret (str_contains k s)
  | _ => raise (NotIterable (type_of v))
  end.

(** [v[k]] for a str [k]. *)
Definition py_getitem (v : pyval) (k : pystr) : M pyval :=
  match v with
  | PDict d =>
    match dict_lookup d k with
    | Some x => ret x
    | None => raise (KeyError k)
    end
  | _ => raise (BadSubscript (type_of v))
  end.

(** [len(v)] *)
Definition py_len (v : pyval) : M Z :=
  match v with
  | PStr s => ret (Z.of_nat (List.length s))
  | PList l => ret (Z.of_nat (List.length l))
  | PDict d => ret (Z.of_nat (List.length d))
  | _ => raise (NoLen (type_of v))
  end.

(** [response.json()] *)
Definition response_json (r : response) : M pyval :=
  match json r with
  | Some v => ret v
  | None => raise JSONDecodeError
  end.

(** [line.decode("utf-8")] *)
Definition decode_utf8 (line : pybytes) : M pystr :=
  match utf8_decode line with
  | Some s => ret s
  | None => raise (UnicodeDecodeError line)
  end.

(** Truth value of a [bytes]: false when empty. *)
Definition bytes_truthy (b : pybytes) : bool :=
  match b with
  | [] => false
  | _ :: _ => true
  end.

(** [sum(results)] over booleans: the number of [True]. *)
Fixpoint sum_bools (results : list bool) : Z :=
  match results with
  | [] => 0
  | true :: r => 1 + sum_bools r
  | false :: r => sum_bools r
  end.

(* ================================================================== *)
(** ** The script *)
(* ================================================================== *)

(** The marks that open the printed lines, as the code points of the
    source's literals. *)
Definition cross : pystr := [0xE2; 0x152]%N.
Definition tick : pystr := [0xE2; 0x153; 0x2026]%N.
Definition warning : pystr := [0xE2; 0x161; 0xA0; 0xEF; 0xB8]%N.
Definition party : pystr := [0x11F; 0x178; 0x2030]%N.

(** The newline character. *)
Definition nl : pystr := [10]%N.

Definition BASE_URL : pystr := lit "http://localhost:3000".

(** The request of [requests.get(url)] and of
    [requests.post(url, headers=headers, json=data)]. *)
Definition get_request (url : pystr) : request :=
  mk_request GET url [] None.

Definition post_request (url : pystr)
    (headers : list (pystr * option pystr)) (data : pyval) : request :=
  mk_request POST url headers (Some data).

Definition check_env_request : request :=
  get_request (BASE_URL ++ lit "/api/check-env").

(** The four checks, in the order [main] lists them. *)
Inductive check := CheckEnv | GenerateFields | Scrape | Enrich.

Definition all_checks : list check :=
  [CheckEnv; GenerateFields; Scrape; Enrich].

Section Script.

(** [str(e)] of an exception, as the interpreter and the libraries
    word it. *)
Variable str_exn : exn -> pystr.

(** The HTTP client with the network and the server behind it. *)
Variable http : http_client.

(** The credentials, read once by [os.getenv] after [load_dotenv()]. *)
Variable FIRECRAWL_API_KEY : option pystr.
Variable OPENAI_API_KEY : option pystr.

(** One call of the HTTP client. *)
Definition send (r : request) : M response :=
  emit (Http r) ;;
  match http r with
  | inl e => raise e
  | inr resp => ret resp
  end.

Definition requests_get (url : pystr) : M response :=
  send (get_request url).

Definition requests_post (url : pystr)
    (headers : list (pystr * option pystr)) (data : pyval) : M response :=
  send (post_request url headers data).

Definition check_environment : M bool :=
  if negb (env_truthy FIRECRAWL_API_KEY) then
    print (cross ++ lit " FIRECRAWL_API_KEY not set") ;;
    ret false
  else if negb (env_truthy OPENAI_API_KEY) then
    print (cross ++ lit " OPENAI_API_KEY not set") ;;
    ret false
  else
    print (tick ++ lit " Environment variables verified") ;;
    ret true.

Definition test_check_env_endpoint : M bool :=
  print (nl ++ lit "Testing /api/check-env endpoint...") ;;
  try_except
    (response <- requests_get (BASE_URL ++ lit "/api/check-env") ;;
     if status_code response =? 200 then
       data <- response_json response ;;
       env_status <- py_get data (lit "environmentStatus") (PDict []) ;;
       firecrawl <- py_get env_status (lit "FIRECRAWL_API_KEY") PNone ;;
       both <- (if truthy firecrawl then
                  openai <- py_get env_status (lit "OPENAI_API_KEY") PNone ;;
                  ret (truthy openai)
                else ret false) ;;
       if both : bool then
         print (tick ++
                lit " /api/check-env: All environment variables configured") ;;
         ret true
       else
         print (cross ++
                lit " /api/check-env: Missing API keys in environment") ;;
         ret false
     else
       print (cross ++ lit " /api/check-env: HTTP " ++
              str_int (status_code response)) ;;
       ret false)
    (fun e =>
       print (cross ++ lit " /api/check-env: " ++ str_exn e) ;;
       ret false).

Definition generate_fields_headers : list (pystr * option pystr) :=
  [(lit "Content-Type", Some (lit "application/json"));
   (lit "X-OpenAI-API-Key", OPENAI_API_KEY)].

Definition generate_fields_data : pyval :=
  PDict
    [(lit "prompt",
      PStr (lit "Generate fields for company information including name and industry"))].

Definition generate_fields_request : request :=
  post_request (BASE_URL ++ lit "/api/generate-fields")
    generate_fields_headers generate_fields_data.

Definition test_generate_fields : M bool :=
  print (nl ++ lit "Testing /api/generate-fields endpoint...") ;;
  try_except
    (let headers := generate_fields_headers in
     let data := generate_fields_data in
     response <- requests_post (BASE_URL ++ lit "/api/generate-fields")
                   headers data ;;
     if status_code response =? 200 then
       result <- response_json response ;;
       success <- py_get result (lit "success") PNone ;;
       shaped <- (if truthy success then
                    data <- py_get result (lit "data") (PDict []) ;;
                    py_in (lit "fields") data
                  else ret false) ;;
       if shaped : bool then
         data <- py_getitem result (lit "data") ;;
         fields <- py_getitem data (lit "fields") ;;
         n <- py_len fields ;;
         print (tick ++ lit " /api/generate-fields: Generated " ++
                str_int n ++ lit " fields") ;;
         ret true
       else
         print (cross ++
                lit " /api/generate-fields: Unexpected response format") ;;
         ret false
     else
       print (cross ++ lit " /api/generate-fields: HTTP " ++
              str_int (status_code response)) ;;
       print (text response) ;;
       ret false)
    (fun e =>
       print (cross ++ lit " /api/generate-fields: " ++ str_exn e) ;;
       ret false).

Definition scrape_headers : list (pystr * option pystr) :=
  [(lit "Content-Type", Some (lit "application/json"));
   (lit "X-Firecrawl-API-Key", FIRECRAWL_API_KEY)].

Definition scrape_data : pyval :=
  PDict
    [(lit "url", PStr (lit "https://firecrawl.dev"));
     (lit "formats", PList [PStr (lit "markdown")])].

Definition scrape_request : request :=
  post_request (BASE_URL ++ lit "/api/scrape") scrape_headers scrape_data.

Definition test_scrape_endpoint : M bool :=
  print (nl ++ lit "Testing /api/scrape endpoint...") ;;
  try_except
    (let headers := scrape_headers in
     let data := scrape_data in
     response <- requests_post (BASE_URL ++ lit "/api/scrape")
                   headers data ;;
     if status_code response =? 200 then
       result <- response_json response ;;
       success <- py_get result (lit "success") PNone ;;
       shaped <- (if truthy success then
                    data <- py_get result (lit "data") (PDict []) ;;
                    py_in (lit "content") data
                  else ret false) ;;
       if shaped : bool then
         print (tick ++ lit " /api/scrape: Successfully scraped website") ;;
         ret true
       else
         print (cross ++ lit " /api/scrape: Unexpected response format") ;;
         ret false
     else if status_code response =? 429 then
       print (warning ++ lit "  /api/scrape: Rate limited (this is normal)") ;;
       ret true
     else
       print (cross ++ lit " /api/scrape: HTTP " ++
              str_int (status_code response)) ;;
       print (text response) ;;
       ret false)
    (fun e =>
       print (cross ++ lit " /api/scrape: " ++ str_exn e) ;;
       ret false).

Definition enrich_headers : list (pystr * option pystr) :=
  [(lit "Content-Type", Some (lit "application/json"));
   (lit "X-OpenAI-API-Key", OPENAI_API_KEY);
   (lit "X-Firecrawl-API-Key", FIRECRAWL_API_KEY)].

Definition enrich_data : pyval :=
  PDict
    [(lit "rows",
      PList [PDict [(lit "email", PStr (lit "eric@firecrawl.dev"))]]);
     (lit "fields",
      PList [PDict [(lit "name", PStr (lit "companyName"));
                    (lit "displayName", PStr (lit "Company Name"));
                    (lit "description", PStr (lit "The name of the company"));
                    (lit "type", PStr (lit "string"));
                    (lit "required", PBool false)]]);
     (lit "emailColumn", PStr (lit "email"))].

Definition enrich_request : request :=
  post_request (BASE_URL ++ lit "/api/enrich") enrich_headers enrich_data.

(** The loop [for i, line in enumerate(response.iter_lines())] with its
    [break] at [i >= 5]; [lines] is the list built so far. *)
Fixpoint read_lines (i : Z) (it : list pybytes) (lines : list pystr)
  : M (list pystr) :=
  match it with
  | [] => ret lines
  | line :: rest =>
    if 5 <=? i then ret lines
    else if bytes_truthy line then
      s <- decode_utf8 line ;;
      read_lines (i + 1) rest (lines ++ [s])
    else read_lines (i + 1) rest lines
  end.

Definition is_sse_event (line : pystr) : bool :=
  startswith line (lit "data: ").

Definition test_enrich_endpoint : M bool :=
  print (nl ++ lit "Testing /api/enrich endpoint...") ;;
  try_except
    (let headers := enrich_headers in
     let data := enrich_data in
     response <- requests_post (BASE_URL ++ lit "/api/enrich")
                   headers data ;;
     if status_code response =? 200 then
       lines <- read_lines 0 (iter_lines response) [] ;;
       let valid_events := filter is_sse_event lines in
       if 0 <? Z.of_nat (List.length valid_events) then
         print (tick ++ lit " /api/enrich: Streaming response working") ;;
         ret true
       else
         print (cross ++
                lit " /api/enrich: Invalid streaming response format") ;;
         ret false
     else
       print (cross ++ lit " /api/enrich: HTTP " ++
              str_int (status_code response)) ;;
       print (text response) ;;
       ret false)
    (fun e =>
       print (cross ++ lit " /api/enrich: " ++ str_exn e) ;;
       ret false).

(** The loop of [main] over [tests]; [results] is the list built so
    far. *)
Fixpoint run_tests (tests : list (M bool)) (results : list bool)
  : M (list bool) :=
  match tests with
  | [] => ret results
  | test :: rest =>
    results' <-
      try_except
        (r <- test ;;
         ret (results ++ [r]))
        (fun e =>
           print (lit "Test failed with exception: " ++ str_exn e) ;;
           ret (results ++ [false])) ;;
    time_sleep 1 ;;
    run_tests rest results'
  end.

Definition tests : list (M bool) :=
  [test_check_env_endpoint;
   test_generate_fields;
   test_scrape_endpoint;
   test_enrich_endpoint].

(** The check function behind each entry of [tests], the request it
    sends, and whether it passes. *)
Definition run_check (c : check) : M bool :=
  match c with
  | CheckEnv => test_check_env_endpoint
  | GenerateFields => test_generate_fields
  | Scrape => test_scrape_endpoint
  | Enrich => test_enrich_endpoint
  end.

Definition check_request (c : check) : request :=
  match c with
  | CheckEnv => check_env_request
  | GenerateFields => generate_fields_request
  | Scrape => scrape_request
  | Enrich => enrich_request
  end.

(** What the loop of [main] appends to [results] for a test that
    returns or raises. *)
Definition recorded (test : M bool) : bool :=
  match result test with
  | Ret b => b
  | _ => false
  end.

(** The events of one turn of the loop of [main]: those of the test,
    the line printed when it raises, and the pause. *)
Definition loop_events (test : M bool) : list event :=
  trace test ++
  match result test with
  | Exc e => [Print (lit "Test failed with exception: " ++ str_exn e)]
  | _ => []
  end ++
  [Sleep 1].

Definition check_passed (c : check) : bool := recorded (run_check c).

(** The summary that ends [main], from the collected results. *)
Definition summary (results : list bool) : M Z :=
  print (nl ++ str_mul (lit "=") 30) ;;
  print (lit "Validation Summary:") ;;
  let passed := sum_bools results in
  let total := Z.of_nat (List.length results) in
  print (lit "Passed: " ++ str_int passed ++ lit "/" ++ str_int total) ;;
  if passed =? total then
    print (party ++ lit " All tests passed! API is working correctly.") ;;
    ret 0
  else
    print (cross ++ lit " Some tests failed. Check output above.") ;;
    ret 1.

Definition main : M Z :=
  print (lit "Fireenrich API Validation") ;;
  print (str_mul (lit "=") 30) ;;
  ok <- check_environment ;;
  (if negb ok then sys_exit 1 else ret tt) ;;
  results <- run_tests tests [] ;;
  summary results.

(** [sys.exit(main())]: the trace of the run and the exit code of the
    process.  An exception that reaches the top level ends the process
    with code 1. *)
Definition script : list event * Z :=
  match main with
  | (t, Ret code) => (t, code)
  | (t, Exit code) => (t, code)
  | (t, Exc _) => (t, 1)
  end.

End Script.

(* ================================================================== *)
(** ** Mock servers *)
(* ================================================================== *)

(** A rendering of exceptions for the concrete runs. *)
Definition mock_str_exn (e : exn) : pystr :=
  match e with
  | RequestException detail => detail
  | _ => lit "error"
  end.

Definition url_path (r : request) : pystr :=
  skipn (List.length BASE_URL) (req_url r).

Definition json_response (code : Z) (body : pyval) : response :=
  mk_response code (Some body) [] [].

(** The body [{"environmentStatus": {"FIRECRAWL_API_KEY": true,
    "OPENAI_API_KEY": true}}]. *)
Definition env_status_body (firecrawl openai : pyval) : pyval :=
  PDict [(lit "environmentStatus",
          PDict [(lit "FIRECRAWL_API_KEY", firecrawl);
                 (lit "OPENAI_API_KEY", openai)])].

(** The bytes of the line [data: {"type":"start"}]. *)
Definition start_event : pybytes :=
  list_byte_of_string "data: {" ++ [x22] ++ list_byte_of_string "type" ++
  [x22; x3a; x22] ++ list_byte_of_string "start" ++ [x22; x7d].

(** A server on which every endpoint answers 200 with a well-formed
    body. *)
Definition mock_ok : http_client := fun r =>
  if pystr_eqb (url_path r) (lit "/api/check-env") then
    inr (json_response 200 (env_status_body (PBool true) (PBool true)))
  else if pystr_eqb (url_path r) (lit "/api/generate-fields") then
    inr (json_response 200
           (PDict [(lit "success", PBool true);
                   (lit "data",
                    PDict [(lit "fields", PList [PDict []; PDict []])])]))
  else if pystr_eqb (url_path r) (lit "/api/scrape") then
    inr (json_response 200
           (PDict [(lit "success", PBool true);
                   (lit "data",
                    PDict [(lit "content", PStr (lit "# Firecrawl"))])]))
  else
    inr (mk_response 200 None [] [start_event; []]).

(** A server that answers every request with the same response. *)
Definition mock_const (resp : response) : http_client := fun _ => inr resp.

(** A server that answers every request with the status [code] and an
    empty body. *)
Definition mock_status (code : Z) : http_client :=
  mock_const (mk_response code None [] []).

(** No server: every call raises. *)
Definition mock_down : http_client := fun _ =>
  inl (RequestException (lit "Connection refused")).

(** A server on which one endpoint is down and the others are well. *)
Definition mock_down_at (path : pystr) : http_client := fun r =>
  if pystr_eqb (url_path r) path then mock_down r else mock_ok r.

(** A server on which one endpoint answers [resp] and the others are
    well. *)
Definition mock_at (path : pystr) (resp : response) : http_client := fun r =>
  if pystr_eqb (url_path r) path then inr resp else mock_ok r.

(** A 200 response whose stream opens with the start event and goes on
    with a byte that is not UTF-8. *)
Definition garbled_stream : response :=
  mk_response 200 None [] [start_event; [xff]].

Definition key1 : option pystr := Some (lit "fc-key").
Definition key2 : option pystr := Some (lit "sk-key").

(* ================================================================== *)
(** ** Vocabulary for the properties of the checks *)
(* ================================================================== *)

(** The path each check names in the lines it prints. *)
Definition check_path (c : check) : pystr :=
  match c with
  | CheckEnv => lit "/api/check-env"
  | GenerateFields => lit "/api/generate-fields"
  | Scrape => lit "/api/scrape"
  | Enrich => lit "/api/enrich"
  end.

(** The line a check prints before anything else. *)
Definition check_header (c : check) : pystr :=
  nl ++ lit "Testing " ++ check_path c ++ lit " endpoint...".

Definition is_print (ev : event) : bool :=
  match ev with
  | Print _ => true
  | _ => false
  end.

(** The events of a trace other than the printed lines: the requests and
    the pauses, in order. *)
Definition effects (t : list event) : list event :=
  filter (fun ev => negb (is_print ev)) t.

(** A line made of ASCII bytes only. *)
Definition is_ascii (line : pybytes) : bool :=
  forallb (fun b => (Byte.to_N b <? 0x80)%N) line.

(** [line.startswith(prefix)] on [bytes]. *)
Fixpoint bytes_startswith (line prefix : pybytes) : bool :=
  match prefix, line with
  | [], _ => true
  | p :: prefix', b :: line' => Byte.eqb b p && bytes_startswith line' prefix'
  | _ :: _, [] => false
  end.

(** The name of the credential the environment check reports: the first
    one that is unset or empty. *)
Definition first_unusable (firecrawl : option pystr) : pystr :=
  if env_truthy firecrawl then lit "OPENAI_API_KEY"
  else lit "FIRECRAWL_API_KEY".

(** A scrape body whose "data" item is a string that mentions the word
    content. *)
Definition scrape_text_body : response :=
  json_response 200
    (PDict [(lit "success", PBool true);
            (lit "data", PStr (lit "no content here"))]).

(** A stream of five blank lines followed by an event. *)
Definition blank_then_event : response :=
  mk_response 200 None [] [[]; []; []; []; []; start_event].


(* ================================================================== *)
(** ** Properties *)
(* ================================================================== *)

(** *** The monad *)

Lemma result_bind {A B} (m : M A) (f : A -> M B) :
  result (bind m f) =
  match result m with
  | Ret a => result (f a)
  | Exc e => Exc e
  | Exit c => Exit c
  end.
Proof.
  destruct m as [t [a | e | c]]; simpl; try reflexivity.
  destruct (f a); reflexivity.
Qed.

Lemma trace_bind {A B} (m : M A) (f : A -> M B) :
  trace (bind m f) =
  trace m ++ match result m with
             | Ret a => trace (f a)
             | _ => []
             end.
Proof.
  destruct m as [t [a | e | c]]; simpl; try (rewrite app_nil_r; reflexivity).
  destruct (f a); reflexivity.
Qed.

Lemma result_try_except {A} (m : M A) (h : exn -> M A) :
  result (try_except m h) =
  match result m with
  | Exc e => result (h e)
  | o => o
  end.
Proof.
  destruct m as [t [a | e | c]]; simpl; try reflexivity.
  destruct (h e); reflexivity.
Qed.

Lemma trace_try_except {A} (m : M A) (h : exn -> M A) :
  trace (try_except m h) =
  trace m ++ match result m with
             | Exc e => trace (h e)
             | _ => []
             end.
Proof.
  destruct m as [t [a | e | c]]; simpl; try (rewrite app_nil_r; reflexivity).
  destruct (h e); reflexivity.
Qed.

Lemma requests_sent_app (t1 t2 : list event) :
  requests_sent (t1 ++ t2) = requests_sent t1 ++ requests_sent t2.
Proof.
  induction t1 as [| [s | r | n] t1 IH]; simpl; rewrite ?IH; reflexivity.
Qed.

Lemma printed_app (t1 t2 : list event) :
  printed (t1 ++ t2) = printed t1 ++ printed t2.
Proof.
  induction t1 as [| [s | r | n] t1 IH]; simpl; rewrite ?IH; reflexivity.
Qed.

Section Properties.

Variable str_exn : exn -> pystr.
Variable http : http_client.
Variable FIRECRAWL_API_KEY OPENAI_API_KEY : option pystr.

Let run := run_check str_exn http FIRECRAWL_API_KEY OPENAI_API_KEY.
Let req := check_request FIRECRAWL_API_KEY OPENAI_API_KEY.

Ltac open_check :=
  unfold run, req in *; cbn [run_check check_request] in *;
  unfold test_check_env_endpoint, test_generate_fields,
    test_scrape_endpoint, test_enrich_endpoint,
    requests_get, requests_post, send;
  unfold check_env_request, generate_fields_request, scrape_request,
    enrich_request in *;
  cbv zeta.

Ltac eval_check := cbn -[lit str_int Z.eqb Z.ltb read_lines].

(** A status other than 200, and other than 429 on the scrape check,
    fails the check. *)
Lemma check_bad_status (c : check) (resp : response) :
  http (req c) = inr resp ->
  status_code resp <> 200 ->
  (c = Scrape -> status_code resp <> 429) ->
  result (run c) = Ret false.
Proof.
  intros H H200 H429.
  destruct c; open_check; rewrite H; eval_check;
    destruct (Z.eqb_spec (status_code resp) 200); try contradiction;
    try reflexivity.
  destruct (Z.eqb_spec (status_code resp) 429); [| reflexivity].
  exfalso. now apply H429.
Qed.

(** An exception raised by the HTTP client fails the check. *)
Lemma check_raises (c : check) (e : exn) :
  http (req c) = inl e -> result (run c) = Ret false.
Proof.
  intros H. destruct c; open_check; rewrite H; reflexivity.
Qed.

(** *** The streaming check *)

(** The lines the loop of the enrich check looks at when it stands at
    index [i]. *)
Let window (i : Z) (it : list pybytes) : list pybytes :=
  firstn (Z.to_nat (5 - i)) it.

Lemma window_nil i : window i [] = [].
Proof. unfold window. apply firstn_nil. Qed.

Lemma window_done i line it : 5 <= i -> window i (line :: it) = [].
Proof.
  intros Hi. unfold window. replace (Z.to_nat (5 - i)) with O by lia.
  reflexivity.
Qed.

Lemma window_step i line it :
  i < 5 -> window i (line :: it) = line :: window (i + 1) it.
Proof.
  intros Hi. unfold window.
  replace (Z.to_nat (5 - i)) with (S (Z.to_nat (5 - (i + 1)))) by lia.
  reflexivity.
Qed.

Lemma read_lines_ok it : forall i acc,
  (forall line, In line (window i it) -> utf8_decode line <> None) ->
  exists ls,
    read_lines i it acc = ([], Ret (acc ++ ls)) /\
    forall s, In s ls <->
              exists line, In line (window i it) /\ line <> [] /\
                           utf8_decode line = Some s.
Proof.
  induction it as [| line it IH]; intros i acc Hok.
  - exists []. rewrite app_nil_r. split; [reflexivity |].
    intros s. rewrite window_nil. split; [intros [] | intros (l & [] & _)].
  - cbn [read_lines]. destruct (Z.leb_spec 5 i) as [Hi | Hi].
    + exists []. rewrite app_nil_r. split; [reflexivity |].
      intros s. rewrite window_done by assumption.
      split; [intros [] | intros (l & [] & _)].
    + rewrite window_step in * by assumption.
      destruct (IH (i + 1) acc) as (ls0 & E0 & S0);
        [intros l Hl; apply Hok; now right |].
      destruct line as [| b line']; cbn [bytes_truthy].
      * exists ls0. split; [exact E0 |].
        intros s. rewrite S0. split.
        -- intros (l & Hl & Hne & Hd). exists l. split; [now right | easy].
        -- intros (l & [<- | Hl] & Hne & Hd); [easy |]. now exists l.
      * unfold decode_utf8.
        destruct (utf8_decode (b :: line')) as [s0 |] eqn:D;
          [| exfalso; apply (Hok (b :: line')); [now left | exact D]].
        destruct (IH (i + 1) (acc ++ [s0])) as (ls & E & Sp);
          [intros l Hl; apply Hok; now right |].
        exists (s0 :: ls). split.
        -- unfold ret, bind. rewrite E. rewrite <- app_assoc. reflexivity.
        -- intros s. cbn [In]. rewrite Sp. split.
           ++ intros [<- | (l & Hl & Hne & Hd)].
              ** exists (b :: line'). split; [now left | easy].
              ** exists l. split; [now right | easy].
           ++ intros (l & [<- | Hl] & Hne & Hd).
              ** left. congruence.
              ** right. now exists l.
Qed.

Lemma read_lines_bad it : forall i acc,
  (exists line, In line (window i it) /\ utf8_decode line = None) ->
  exists line, read_lines i it acc = ([], Exc (UnicodeDecodeError line)).
Proof.
  induction it as [| line it IH]; intros i acc (l & Hl & Hd).
  - rewrite window_nil in Hl. destruct Hl.
  - cbn [read_lines]. destruct (Z.leb_spec 5 i) as [Hi | Hi].
    + rewrite window_done in Hl by assumption. destruct Hl.
    + rewrite window_step in Hl by assumption.
      destruct line as [| b line']; cbn [bytes_truthy].
      * destruct Hl as [<- | Hl]; [discriminate Hd |].
        apply IH. now exists l.
      * unfold decode_utf8.
        destruct (utf8_decode (b :: line')) as [s0 |] eqn:D.
        -- destruct Hl as [<- | Hl]; [congruence |].
           destruct (IH (i + 1) (acc ++ [s0])) as (l' & E);
             [now exists l |].
           exists l'. unfold ret, bind. rewrite E. reflexivity.
        -- exists (b :: line'). reflexivity.
Qed.

(** The enrich check on a 200 response, from what the loop collects. *)
Lemma enrich_200 resp :
  http (enrich_request FIRECRAWL_API_KEY OPENAI_API_KEY) = inr resp ->
  status_code resp = 200 ->
  result (test_enrich_endpoint str_exn http FIRECRAWL_API_KEY OPENAI_API_KEY) =
  match result (read_lines 0 (iter_lines resp) []) with
  | Ret ls => Ret (0 <? Z.of_nat (List.length (filter is_sse_event ls)))
  | Exc _ => Ret false
  | Exit c => Exit c
  end.
Proof.
  intros H Hs. open_check. rewrite H. eval_check. rewrite Hs. eval_check.
  destruct (read_lines 0 (iter_lines resp) []) as [t [ls | e | c]];
    eval_check; try reflexivity.
  destruct (0 <? Z.of_nat (List.length (filter is_sse_event ls)));
    reflexivity.
Qed.

Lemma filter_nonempty {A} (f : A -> bool) (l : list A) :
  (0 <? Z.of_nat (List.length (filter f l))) = true <->
  exists x, In x l /\ f x = true.
Proof.
  rewrite Z.ltb_lt. split.
  - destruct (filter f l) as [| x r] eqn:E; cbn [List.length]; [lia |].
    intros _. exists x. apply filter_In. rewrite E. now left.
  - intros (x & Hx & Hf).
    assert (Hin : In x (filter f l)) by (apply filter_In; easy).
    destruct (filter f l); [destruct Hin | cbn [List.length]; lia].
Qed.

(** The enrich check on a 200 response passes exactly when every one
    of the first five lines decodes and one of them is an event. *)
Lemma enrich_200_passes resp :
  http (enrich_request FIRECRAWL_API_KEY OPENAI_API_KEY) = inr resp ->
  status_code resp = 200 ->
  (result (test_enrich_endpoint str_exn http FIRECRAWL_API_KEY OPENAI_API_KEY)
   = Ret true <->
   (forall line, In line (firstn 5 (iter_lines resp)) ->
                 utf8_decode line <> None) /\
   (exists line s, In line (firstn 5 (iter_lines resp)) /\
                   utf8_decode line = Some s /\ is_sse_event s = true)).
Proof.
  intros H Hs. rewrite (enrich_200 resp H Hs).
  change (firstn 5 (iter_lines resp)) with (window 0 (iter_lines resp)).
  destruct (existsb undecodable (window 0 (iter_lines resp))) eqn:B.
  - apply existsb_exists in B. destruct B as (l & Hl & Hu).
    unfold undecodable in Hu.
    destruct (utf8_decode l) eqn:D; [discriminate |].
    destruct (read_lines_bad (iter_lines resp) 0 []) as (l' & E);
      [now exists l |].
    rewrite E. cbn [result snd]. split; [discriminate |].
    intros (Hall & _). exfalso. now apply (Hall l).
  - assert (Hall : forall line, In line (window 0 (iter_lines resp)) ->
                                utf8_decode line <> None).
    { intros l Hl D.
      assert (existsb undecodable (window 0 (iter_lines resp)) = true)
        by (apply existsb_exists; exists l; unfold undecodable;
            now rewrite D).
      congruence. }
    destruct (read_lines_ok (iter_lines resp) 0 [] Hall) as (ls & E & Sp).
    rewrite E. cbn [result snd app]. split.
    + intros P. split; [exact Hall |].
      injection P as P. apply filter_nonempty in P.
      destruct P as (s & Hin & Hev). apply Sp in Hin.
      destruct Hin as (l & Hl & _ & Hd). now exists l, s.
    + intros (_ & l & s & Hl & Hd & Hev). f_equal.
      apply filter_nonempty. exists s. split; [| exact Hev].
      apply Sp. exists l. repeat split; try assumption.
      intros ->. cbn in Hd. injection Hd as <-. discriminate Hev.
Qed.

Lemma read_lines_cases it i acc :
  (exists ls, read_lines i it acc = ([], Ret ls)) \/
  (exists line, read_lines i it acc = ([], Exc (UnicodeDecodeError line))).
Proof.
  destruct (existsb undecodable (window i it)) eqn:B.
  - right. apply existsb_exists in B. destruct B as (l & Hl & Hu).
    apply read_lines_bad. exists l. split; [exact Hl |].
    unfold undecodable in Hu. now destruct (utf8_decode l).
  - left. destruct (read_lines_ok it i acc) as (ls & E & _).
    + intros l Hl D.
      assert (existsb undecodable (window i it) = true)
        by (apply existsb_exists; exists l; unfold undecodable;
            now rewrite D).
      congruence.
    + now exists (acc ++ ls).
Qed.

(** *** The check-env check *)

Lemma check_env_passes :
  result (test_check_env_endpoint str_exn http) = Ret true <->
  exists resp body env v1 v2,
    http check_env_request = inr resp /\
    status_code resp = 200 /\
    json resp = Some (PDict body) /\
    dict_lookup body (lit "environmentStatus") = Some (PDict env) /\
    dict_lookup env (lit "FIRECRAWL_API_KEY") = Some v1 /\
    truthy v1 = true /\
    dict_lookup env (lit "OPENAI_API_KEY") = Some v2 /\
    truthy v2 = true.
Proof.
  split.
  - open_check.
    destruct (http (get_request (BASE_URL ++ lit "/api/check-env")))
      as [e | resp] eqn:H; eval_check; [discriminate |].
    destruct (Z.eqb_spec (status_code resp) 200) as [Hs | Hs];
      eval_check; [| discriminate].
    unfold response_json.
    destruct (json resp) as [v |] eqn:J; eval_check; [| discriminate].
    destruct v as [| | | | | | body]; eval_check; try discriminate.
    destruct (dict_lookup body (lit "environmentStatus")) as [es |] eqn:L;
      eval_check; [| discriminate].
    destruct es as [| | | | | | env]; eval_check; try discriminate.
    destruct (dict_lookup env (lit "FIRECRAWL_API_KEY")) as [v1 |] eqn:L1;
      eval_check; [| discriminate].
    destruct (truthy v1) eqn:T1; eval_check; [| discriminate].
    destruct (dict_lookup env (lit "OPENAI_API_KEY")) as [v2 |] eqn:L2;
      eval_check; [| discriminate].
    destruct (truthy v2) eqn:T2; eval_check; [| discriminate].
    intros _. exists resp, body, env, v1, v2. repeat split; assumption.
  - intros (resp & body & env & v1 & v2 & H & Hs & J & L & L1 & T1 & L2 & T2).
    open_check. rewrite H. eval_check. rewrite Hs. eval_check.
    unfold response_json. rewrite J. eval_check. rewrite L. eval_check.
    rewrite L1. eval_check. rewrite T1. eval_check.
    rewrite L2. eval_check. rewrite T2. reflexivity.
Qed.

(** *** Every check returns a boolean and sends one request *)

Ltac split_check :=
  repeat (eval_check;
          match goal with
          | |- context [match ?x with _ => _ end] =>
            lazymatch x with
            | context [match _ with _ => _ end] => fail
            | _ => destruct x eqn:?
            end
          end);
  eval_check; eauto.

Lemma check_returns (c : check) :
  exists b, result (run c) = Ret b /\
            requests_sent (trace (run c)) = [req c].
Proof.
  destruct c; open_check.
  - destruct (http _) as [e | resp]; [eexists; split; reflexivity |].
    unfold response_json, py_get. split_check.
  - destruct (http _) as [e | resp]; [eexists; split; reflexivity |].
    unfold response_json, py_get, py_in, py_getitem, py_len. split_check.
  - destruct (http _) as [e | resp]; [eexists; split; reflexivity |].
    unfold response_json, py_get, py_in. split_check.
  - destruct (http _) as [e | resp]; [eexists; split; reflexivity |].
    eval_check. destruct (status_code resp =? 200); [| split_check].
    destruct (read_lines_cases (iter_lines resp) 0 [])
      as [(ls & E) | (l & E)]; rewrite E; split_check.
Qed.

(** A body that does not parse fails the three JSON checks. *)
Lemma check_json_error (c : check) (resp : response) :
  c <> Enrich ->
  http (req c) = inr resp ->
  status_code resp = 200 ->
  json resp = None ->
  result (run c) = Ret false.
Proof.
  intros Hc H Hs J.
  destruct c; try contradiction; open_check; rewrite H; eval_check;
    rewrite Hs; eval_check; unfold response_json; rewrite J; reflexivity.
Qed.

(** A line that does not decode among the first five fails the enrich
    check. *)
Lemma enrich_undecodable (resp : response) (line : pybytes) :
  http (req Enrich) = inr resp ->
  status_code resp = 200 ->
  In line (firstn 5 (iter_lines resp)) ->
  utf8_decode line = None ->
  result (run Enrich) = Ret false.
Proof.
  intros H Hs Hl D. unfold run, req in *. cbn [run_check check_request] in *.
  rewrite (enrich_200 resp H Hs).
  destruct (read_lines_bad (iter_lines resp) 0 []) as (l' & E);
    [now exists line |].
  rewrite E. reflexivity.
Qed.

(** *** The runner *)

Lemma run_tests_spec (ts : list (M bool)) : forall acc,
  (forall t, In t ts -> forall code, result t <> Exit code) ->
  result (run_tests str_exn ts acc) = Ret (acc ++ map recorded ts) /\
  trace (run_tests str_exn ts acc) = flat_map (loop_events str_exn) ts.
Proof.
  induction ts as [| test ts IH]; intros acc Hne.
  - cbn. now rewrite app_nil_r.
  - assert (Hts : forall t, In t ts -> forall code, result t <> Exit code)
      by (intros t Ht; apply Hne; now right).
    assert (Htest : forall code, result test <> Exit code)
      by (apply Hne; now left).
    cbn [run_tests flat_map map].
    destruct test as [t [b | e | code]].
    + destruct (IH (acc ++ [b]) Hts) as [R T].
      cbn -[lit run_tests loop_events recorded].
      destruct (run_tests str_exn ts (acc ++ [b])) as [t' o'].
      cbn [result trace fst snd] in R, T |- *. subst. split.
      * rewrite <- app_assoc. reflexivity.
      * unfold loop_events. cbn [result trace fst snd].
        rewrite app_nil_r, <- app_assoc. reflexivity.
    + destruct (IH (acc ++ [false]) Hts) as [R T].
      cbn -[lit run_tests loop_events recorded].
      destruct (run_tests str_exn ts (acc ++ [false])) as [t' o'].
      cbn [result trace fst snd] in R, T |- *. subst. split.
      * rewrite <- app_assoc. reflexivity.
      * unfold loop_events. cbn [result trace fst snd].
        rewrite <- !app_assoc. reflexivity.
    + now destruct (Htest code).
Qed.

Lemma sum_bools_range (rs : list bool) :
  0 <= sum_bools rs <= Z.of_nat (List.length rs).
Proof.
  induction rs as [| [|] rs IH]; cbn [sum_bools List.length]; lia.
Qed.

Lemma sum_bools_all (rs : list bool) :
  sum_bools rs = Z.of_nat (List.length rs) <->
  forall b, In b rs -> b = true.
Proof.
  induction rs as [| b rs IH]; cbn [sum_bools List.length In].
  - split; [intros _ b [] | reflexivity].
  - pose proof (sum_bools_range rs) as R. destruct b.
    + split.
      * intros E b [<- | Hb]; [reflexivity |]. apply IH; [lia | exact Hb].
      * intros Hall. assert (sum_bools rs = Z.of_nat (List.length rs))
          by (apply IH; intros b Hb; apply Hall; now right). lia.
    + split; [lia |]. intros Hall.
      assert (false = true) by (apply Hall; now left). discriminate.
Qed.

Lemma sum_bools_count (rs : list bool) :
  sum_bools rs = Z.of_nat (count_occ bool_dec rs true).
Proof.
  induction rs as [| [|] rs IH]; cbn [sum_bools]; [reflexivity | |].
  - rewrite count_occ_cons_eq by reflexivity. lia.
  - rewrite count_occ_cons_neq by discriminate. exact IH.
Qed.

(** The exit code and the lines of the summary. *)
Lemma summary_spec (rs : list bool) :
  exists last,
    summary rs =
    ([Print (nl ++ str_mul (lit "=") 30);
      Print (lit "Validation Summary:");
      Print (lit "Passed: " ++ str_int (sum_bools rs) ++ lit "/" ++
             str_int (Z.of_nat (List.length rs)));
      Print last],
     Ret (if sum_bools rs =? Z.of_nat (List.length rs) then 0 else 1)).
Proof.
  unfold summary. cbv zeta.
  destruct (sum_bools rs =? Z.of_nat (List.length rs));
    eexists; reflexivity.
Qed.

Lemma tests_are_checks :
  tests str_exn http FIRECRAWL_API_KEY OPENAI_API_KEY = map run all_checks.
Proof. reflexivity. Qed.

Lemma tests_results :
  result (run_tests str_exn
            (tests str_exn http FIRECRAWL_API_KEY OPENAI_API_KEY) []) =
  Ret (map (check_passed str_exn http FIRECRAWL_API_KEY OPENAI_API_KEY)
           all_checks).
Proof.
  destruct (run_tests_spec
              (tests str_exn http FIRECRAWL_API_KEY OPENAI_API_KEY) [])
    as [R _].
  - intros t Ht code. rewrite tests_are_checks in Ht.
    apply in_map_iff in Ht. destruct Ht as (c & <- & _).
    destruct (check_returns c) as (b & Hb & _). rewrite Hb. discriminate.
  - rewrite R. reflexivity.
Qed.

Lemma tests_requests :
  requests_sent
    (trace (run_tests str_exn
              (tests str_exn http FIRECRAWL_API_KEY OPENAI_API_KEY) [])) =
  map req all_checks.
Proof.
  destruct (run_tests_spec
              (tests str_exn http FIRECRAWL_API_KEY OPENAI_API_KEY) [])
    as [_ T].
  - intros t Ht code. rewrite tests_are_checks in Ht.
    apply in_map_iff in Ht. destruct Ht as (c & <- & _).
    destruct (check_returns c) as (b & Hb & _). rewrite Hb. discriminate.
  - rewrite T, tests_are_checks. unfold all_checks, loop_events.
    cbn [map flat_map].
    destruct (check_returns CheckEnv) as (b1 & R1 & S1).
    destruct (check_returns GenerateFields) as (b2 & R2 & S2).
    destruct (check_returns Scrape) as (b3 & R3 & S3).
    destruct (check_returns Enrich) as (b4 & R4 & S4).
    rewrite R1, R2, R3, R4. rewrite !requests_sent_app.
    rewrite S1, S2, S3, S4. reflexivity.
Qed.

(** The run of [main] when both credentials are set. *)
Lemma main_with_credentials :
  env_truthy FIRECRAWL_API_KEY = true ->
  env_truthy OPENAI_API_KEY = true ->
  let ts := tests str_exn http FIRECRAWL_API_KEY OPENAI_API_KEY in
  let rs := map (check_passed str_exn http FIRECRAWL_API_KEY OPENAI_API_KEY)
                all_checks in
  main str_exn http FIRECRAWL_API_KEY OPENAI_API_KEY =
  ([Print (lit "Fireenrich API Validation");
    Print (str_mul (lit "=") 30);
    Print (tick ++ lit " Environment variables verified")] ++
   trace (run_tests str_exn ts []) ++ trace (summary rs),
   result (summary rs)).
Proof.
  intros HF HO ts rs.
  pose proof tests_results as R. fold ts rs in R.
  unfold main, check_environment. rewrite HF, HO. cbn [negb]. fold ts.
  destruct (run_tests str_exn ts []) as [t o] eqn:E.
  cbn [result snd] in R. subst o. clearbody rs ts.
  cbn -[lit str_mul summary]. destruct (summary rs) as [t' o'].
  reflexivity.
Qed.

End Properties.

(* ================================================================== *)
(** ** The properties of the specification *)
(* ================================================================== *)

Lemma not_all_true (rs : list bool) :
  ~ (forall b, In b rs -> b = true) <-> In false rs.
Proof.
  split.
  - induction rs as [| [|] rs IH]; intros H.
    + exfalso. apply H. intros b [].
    + right. apply IH. intros Hall. apply H.
      intros b [<- | Hb]; [reflexivity | now apply Hall].
    + now left.
  - intros Hin Hall. specialize (Hall false Hin). discriminate.
Qed.

Section Claims.

Variable str_exn : exn -> pystr.
Variable http : http_client.
Variable FIRECRAWL_API_KEY OPENAI_API_KEY : option pystr.

Let the_script := script str_exn http FIRECRAWL_API_KEY OPENAI_API_KEY.
Let the_tests := tests str_exn http FIRECRAWL_API_KEY OPENAI_API_KEY.
Let passed := check_passed str_exn http FIRECRAWL_API_KEY OPENAI_API_KEY.
Let run := run_check str_exn http FIRECRAWL_API_KEY OPENAI_API_KEY.
Let req := check_request FIRECRAWL_API_KEY OPENAI_API_KEY.

(** C1. The exit code is 0 or 1, and it is 0 exactly when the environment
    check succeeds and each of the four checks passes.  When the
    environment check succeeds the loop records one result per check;
    the exit code is 0 exactly when all four results are passes and 1
    exactly when one of them is a failure, and the summary line printed
    is "Passed: k/4" with k the number of passes. *)
Theorem exit_code_zero_iff_all_passed :
  (snd the_script = 0 \/ snd the_script = 1) /\
  (snd the_script = 0 <->
   env_truthy FIRECRAWL_API_KEY = true /\
   env_truthy OPENAI_API_KEY = true /\
   forall c, passed c = true) /\
  (env_truthy FIRECRAWL_API_KEY = true ->
   env_truthy OPENAI_API_KEY = true ->
   exists results,
     result (run_tests str_exn the_tests []) = Ret results /\
     results = map passed all_checks /\
     List.length results = 4%nat /\
     (snd the_script = 0 <-> forall b, In b results -> b = true) /\
     (snd the_script = 1 <-> In false results) /\
     In (Print (lit "Passed: " ++
                str_int (Z.of_nat (count_occ bool_dec results true)) ++
                lit "/4"))
        (fst the_script)).
Proof.
  assert (Hrun :
    env_truthy FIRECRAWL_API_KEY = true ->
    env_truthy OPENAI_API_KEY = true ->
    (snd the_script = 0 <-> forall b, In b (map passed all_checks) -> b = true) /\
    (snd the_script = 1 <-> In false (map passed all_checks)) /\
    In (Print (lit "Passed: " ++
               str_int (Z.of_nat (count_occ bool_dec
                                    (map passed all_checks) true)) ++
               lit "/4"))
       (fst the_script)).
  { intros HF HO. unfold the_script, script.
    rewrite (main_with_credentials str_exn http _ _ HF HO). cbv zeta.
    fold passed.
    destruct (summary_spec (map passed all_checks)) as (last & E).
    rewrite E. cbn [result trace fst snd].
    rewrite <- sum_bools_count.
    destruct (Z.eqb_spec (sum_bools (map passed all_checks))
                (Z.of_nat (List.length (map passed all_checks))))
      as [Hall | Hsome]; cbn [fst snd].
    - pose proof (proj1 (sum_bools_all _) Hall) as Hall'.
      repeat split; try easy.
      + intros Hin. apply not_all_true in Hin. contradiction.
      + apply in_or_app. right. apply in_or_app. right.
        right. right. left. reflexivity.
    - rewrite sum_bools_all in Hsome. repeat split; try easy.
      + intros _. now apply not_all_true.
      + apply in_or_app. right. apply in_or_app. right.
        right. right. left. reflexivity. }
  assert (Hchecks :
    (forall b, In b (map passed all_checks) -> b = true) <->
    (forall c, passed c = true)).
  { split.
    - intros Hall c. apply Hall. apply in_map.
      destruct c; cbn; auto.
    - intros Hall b Hb. apply in_map_iff in Hb.
      destruct Hb as (c & <- & _). apply Hall. }
  destruct (env_truthy FIRECRAWL_API_KEY) eqn:HF;
    [destruct (env_truthy OPENAI_API_KEY) eqn:HO |].
  - destruct (Hrun eq_refl eq_refl) as (E0 & E1 & P).
    split; [| split].
    + destruct (in_dec bool_dec false (map passed all_checks)) as [Hin | Hin].
      * right. now apply E1.
      * left. apply E0. intros b Hb. destruct b; [reflexivity | contradiction].
    + rewrite E0, Hchecks. tauto.
    + intros _ _. exists (map passed all_checks).
      split; [apply tests_results |]. split; [reflexivity |].
      split; [reflexivity |]. split; [exact E0 |]. split; [exact E1 | exact P].
  - assert (E : snd the_script = 1).
    { unfold the_script, script, main, check_environment.
      rewrite HF, HO. reflexivity. }
    rewrite E. split; [now right |]. split; [| discriminate].
    split; [discriminate | intros (_ & X & _); discriminate X].
  - assert (E : snd the_script = 1).
    { unfold the_script, script, main, check_environment.
      rewrite HF. reflexivity. }
    rewrite E. split; [now right |]. split; [| discriminate].
    split; [discriminate | intros (X & _); discriminate X].
Qed.

(** C2. If either credential is absent the script exits with code 1
    and sends no HTTP request; the line printed names
    FIRECRAWL_API_KEY when that one is absent, OPENAI_API_KEY when the
    first one is usable, and in every case a credential that is not
    usable. *)
Theorem missing_credential_aborts :
  FIRECRAWL_API_KEY = None \/ OPENAI_API_KEY = None ->
  snd the_script = 1 /\
  requests_sent (fst the_script) = [] /\
  (FIRECRAWL_API_KEY = None ->
   In (Print (cross ++ lit " FIRECRAWL_API_KEY not set")) (fst the_script)) /\
  (env_truthy FIRECRAWL_API_KEY = true ->
   In (Print (cross ++ lit " OPENAI_API_KEY not set")) (fst the_script)) /\
  exists name value,
    In (name, value) [(lit "FIRECRAWL_API_KEY", FIRECRAWL_API_KEY);
                      (lit "OPENAI_API_KEY", OPENAI_API_KEY)] /\
    env_truthy value = false /\
    In (Print (cross ++ lit " " ++ name ++ lit " not set")) (fst the_script).
Proof.
  intros Habsent. unfold the_script, script, main, check_environment.
  destruct FIRECRAWL_API_KEY as [[| x f] |];
    destruct OPENAI_API_KEY as [[| y o] |];
    destruct Habsent as [H | H]; try discriminate H;
    cbn -[lit str_mul cross];
    (split; [reflexivity |]); (split; [reflexivity |]);
    (split; [intros; try discriminate; auto 6 using in_eq, in_cons |]);
    (split; [intros; try discriminate; auto 6 using in_eq, in_cons |]).
  all: first
    [ exists (lit "FIRECRAWL_API_KEY"), (@None pystr);
      split; [now left |]; split; [reflexivity |];
      auto 6 using in_eq, in_cons; fail
    | exists (lit "FIRECRAWL_API_KEY"), (Some (@nil N));
      split; [now left |]; split; [reflexivity |];
      auto 6 using in_eq, in_cons; fail
    | exists (lit "OPENAI_API_KEY"), (@None pystr);
      split; [right; now left |]; split; [reflexivity |];
      auto 6 using in_eq, in_cons ].
Qed.

(** C3. On the scrape check a response with status 429 is a pass,
    whatever its body. *)
Theorem scrape_rate_limited_passes (resp : response) :
  http (scrape_request FIRECRAWL_API_KEY) = inr resp ->
  status_code resp = 429 ->
  result (test_scrape_endpoint str_exn http FIRECRAWL_API_KEY) = Ret true.
Proof.
  intros H Hs. unfold test_scrape_endpoint, requests_post, send.
  cbv zeta. unfold scrape_request in H. rewrite H.
  cbn -[lit str_int Z.eqb]. rewrite Hs. reflexivity.
Qed.

(** C4. On each of the check-env, generate-fields and enrich checks a
    response with status 429 is a failure. *)
Theorem other_checks_rate_limited_fail (c : check) (resp : response) :
  c <> Scrape ->
  http (req c) = inr resp ->
  status_code resp = 429 ->
  result (run c) = Ret false.
Proof.
  intros Hc H Hs. apply (check_bad_status str_exn http _ _ c resp H).
  - rewrite Hs. discriminate.
  - intros ->. contradiction.
Qed.

(** C5. A status other than 200, and other than 429 on the scrape
    check, fails the check; the run goes on: the four requests are sent
    in order and the loop records the result of every check. *)
Theorem bad_status_fails_and_run_continues (c : check) (resp : response) :
  env_truthy FIRECRAWL_API_KEY = true ->
  env_truthy OPENAI_API_KEY = true ->
  http (req c) = inr resp ->
  status_code resp <> 200 ->
  (c = Scrape -> status_code resp <> 429) ->
  result (run c) = Ret false /\
  passed c = false /\
  result (run_tests str_exn the_tests []) = Ret (map passed all_checks) /\
  requests_sent (fst the_script) = map req all_checks.
Proof.
  intros HF HO H H200 H429.
  pose proof (check_bad_status str_exn http _ _ c resp H H200 H429) as R.
  split; [exact R |].
  split; [unfold passed, check_passed, recorded; unfold run in R;
          now rewrite R |].
  split; [apply tests_results |].
  unfold the_script, script.
  rewrite (main_with_credentials str_exn http _ _ HF HO). cbv zeta.
  destruct (summary_spec
              (map (check_passed str_exn http FIRECRAWL_API_KEY
                      OPENAI_API_KEY) all_checks)) as (last & E).
  rewrite E. cbn [result trace fst snd].
  destruct (_ =? _); cbn [fst];
    rewrite !requests_sent_app, tests_requests; cbn [requests_sent];
    now rewrite app_nil_r.
Qed.

(** C6. The loop of [main] records one boolean per test, in order: the
    value a test returns, and [False] for a test that raises an
    exception; every test runs, whatever the earlier ones did.  Each of
    the four checks turns an error of its own into a failure: an
    exception of the HTTP client, a body that does not parse, a line
    that does not decode.  So no check ever raises, and the run records
    the four results. *)
Theorem errors_fail_one_check_only :
  (forall ts : list (M bool),
     (forall t, In t ts -> forall code, result t <> Exit code) ->
     result (run_tests str_exn ts []) = Ret (map recorded ts) /\
     List.length (map recorded ts) = List.length ts /\
     (forall i t e, nth_error ts i = Some t -> result t = Exc e ->
                    nth_error (map recorded ts) i = Some false) /\
     (forall i t b, nth_error ts i = Some t -> result t = Ret b ->
                    nth_error (map recorded ts) i = Some b) /\
     trace (run_tests str_exn ts []) = flat_map (loop_events str_exn) ts) /\
  (forall c e, http (req c) = inl e -> result (run c) = Ret false) /\
  (forall c resp, c <> Enrich -> http (req c) = inr resp ->
                  status_code resp = 200 -> json resp = None ->
                  result (run c) = Ret false) /\
  (forall resp line, http (req Enrich) = inr resp ->
                     status_code resp = 200 ->
                     In line (firstn 5 (iter_lines resp)) ->
                     utf8_decode line = None ->
                     result (run Enrich) = Ret false) /\
  (forall c, exists b, result (run c) = Ret b) /\
  result (run_tests str_exn the_tests []) = Ret (map passed all_checks).
Proof.
  split; [| split; [| split; [| split; [| split]]]].
  - intros ts Hne.
    destruct (run_tests_spec str_exn ts [] Hne) as [R T].
    split; [exact R |]. split; [apply length_map |].
    split; [| split; [| exact T]].
    + intros i t e Hi He. rewrite nth_error_map, Hi. cbn [option_map].
      unfold recorded. now rewrite He.
    + intros i t b Hi Hb. rewrite nth_error_map, Hi. cbn [option_map].
      unfold recorded. now rewrite Hb.
  - intros c e H. now apply (check_raises str_exn http _ _ c e).
  - intros c resp Hc H Hs J.
    now apply (check_json_error str_exn http _ _ c resp).
  - intros resp line H Hs Hl D.
    now apply (enrich_undecodable str_exn http _ _ resp line).
  - intros c.
    destruct (check_returns str_exn http FIRECRAWL_API_KEY OPENAI_API_KEY c)
      as (b & Hb & _).
    now exists b.
  - apply tests_results.
Qed.

(** C7 (amended). On a 200 response the enrich check passes exactly
    when every one of the first five lines decodes as UTF-8 and one of
    them begins with "data: "; it returns a boolean in every case.  A
    stream that opens with the start event passes when the next four
    lines decode.  The lines after the fifth have no effect on the
    result. *)
Theorem enrich_passes_iff_event_in_first_five (resp : response) :
  http (enrich_request FIRECRAWL_API_KEY OPENAI_API_KEY) = inr resp ->
  status_code resp = 200 ->
  (result (test_enrich_endpoint str_exn http
          FIRECRAWL_API_KEY OPENAI_API_KEY) = Ret true <->
   (forall line, In line (firstn 5 (iter_lines resp)) ->
                 utf8_decode line <> None) /\
   (exists line s, In line (firstn 5 (iter_lines resp)) /\
                   utf8_decode line = Some s /\ is_sse_event s = true)) /\
  (result (test_enrich_endpoint str_exn http
          FIRECRAWL_API_KEY OPENAI_API_KEY) = Ret true \/ result (test_enrich_endpoint str_exn http
          FIRECRAWL_API_KEY OPENAI_API_KEY) = Ret false) /\
  (forall rest,
     iter_lines resp = start_event :: rest ->
     (forall line, In line (firstn 4 rest) -> utf8_decode line <> None) ->
     result (test_enrich_endpoint str_exn http
          FIRECRAWL_API_KEY OPENAI_API_KEY) = Ret true) /\
  (forall http' resp',
     http' (enrich_request FIRECRAWL_API_KEY OPENAI_API_KEY) = inr resp' ->
     status_code resp' = 200 ->
     firstn 5 (iter_lines resp') = firstn 5 (iter_lines resp) ->
     result (test_enrich_endpoint str_exn http'
               FIRECRAWL_API_KEY OPENAI_API_KEY) =
     result (test_enrich_endpoint str_exn http
          FIRECRAWL_API_KEY OPENAI_API_KEY)).
Proof.
  intros H Hs.
  pose proof (enrich_200_passes str_exn http _ _ resp H Hs) as Hiff.
  assert (Hbool : result (test_enrich_endpoint str_exn http
          FIRECRAWL_API_KEY OPENAI_API_KEY) = Ret true \/
                  result (test_enrich_endpoint str_exn http
          FIRECRAWL_API_KEY OPENAI_API_KEY) = Ret false).
  { destruct (check_returns str_exn http FIRECRAWL_API_KEY OPENAI_API_KEY
                Enrich) as ([|] & Hb & _); [now left | now right]. }
  split; [exact Hiff |]. split; [exact Hbool |]. split.
  - intros rest Hit Hrest. apply Hiff. rewrite Hit. split.
    + intros line [<- | Hl]; [discriminate | now apply Hrest].
    + eexists start_event, _. split; [now left |].
      split; reflexivity.
  - intros http' resp' H' Hs' Hfive.
    pose proof (enrich_200_passes str_exn http' _ _ resp' H' Hs') as Hiff'.
    rewrite Hfive in Hiff'.
    destruct (check_returns str_exn http' FIRECRAWL_API_KEY OPENAI_API_KEY
                Enrich) as (b' & Hb' & _).
    cbn [run_check] in Hb'. rewrite Hb' in *.
    unfold run in *. cbn [run_check] in *.
    destruct Hbool as [E | E]; rewrite E in *.
    + destruct b'; [reflexivity |].
      assert (X : @Ret bool false = Ret true)
        by (apply Hiff'; now apply Hiff).
      discriminate X.
    + destruct b'; [| reflexivity].
      assert (X : @Ret bool false = Ret true)
        by (apply Hiff; now apply Hiff').
      discriminate X.
Qed.

(** C8. The check-env check passes exactly when the response has
    status 200 and its body is a JSON object whose environmentStatus is
    an object in which FIRECRAWL_API_KEY and OPENAI_API_KEY both have
    truthy values; otherwise it fails.  The body with both flags true
    passes, and a body in which a flag is absent or false fails. *)
Theorem check_env_passes_iff_both_flags :
  (result (test_check_env_endpoint str_exn http) = Ret true <->
   exists resp body env v1 v2,
     http check_env_request = inr resp /\
     status_code resp = 200 /\
     json resp = Some (PDict body) /\
     dict_lookup body (lit "environmentStatus") = Some (PDict env) /\
     dict_lookup env (lit "FIRECRAWL_API_KEY") = Some v1 /\
     truthy v1 = true /\
     dict_lookup env (lit "OPENAI_API_KEY") = Some v2 /\
     truthy v2 = true) /\
  (result (test_check_env_endpoint str_exn http) = Ret true \/ result (test_check_env_endpoint str_exn http) = Ret false) /\
  (forall resp,
     http check_env_request = inr resp ->
     status_code resp = 200 ->
     json resp = Some (env_status_body (PBool true) (PBool true)) ->
     result (test_check_env_endpoint str_exn http) = Ret true) /\
  (forall resp body env,
     http check_env_request = inr resp ->
     status_code resp = 200 ->
     json resp = Some (PDict body) ->
     dict_lookup body (lit "environmentStatus") = Some (PDict env) ->
     dict_lookup env (lit "FIRECRAWL_API_KEY") = None \/
     dict_lookup env (lit "FIRECRAWL_API_KEY") = Some (PBool false) \/
     dict_lookup env (lit "OPENAI_API_KEY") = None \/
     dict_lookup env (lit "OPENAI_API_KEY") = Some (PBool false) ->
     result (test_check_env_endpoint str_exn http) = Ret false).
Proof.
  pose proof (check_env_passes str_exn http) as Hiff.
  assert (Hbool : result (test_check_env_endpoint str_exn http) = Ret true \/
                  result (test_check_env_endpoint str_exn http) = Ret false).
  { destruct (check_returns str_exn http FIRECRAWL_API_KEY OPENAI_API_KEY
                CheckEnv) as ([|] & Hb & _); [now left | now right]. }
  unfold run in *. cbn [run_check] in *.
  split; [exact Hiff |]. split; [exact Hbool |]. split.
  - intros resp H Hs J. apply Hiff.
    exists resp, [(lit "environmentStatus",
                   PDict [(lit "FIRECRAWL_API_KEY", PBool true);
                          (lit "OPENAI_API_KEY", PBool true)])],
           [(lit "FIRECRAWL_API_KEY", PBool true);
            (lit "OPENAI_API_KEY", PBool true)], (PBool true), (PBool true).
    repeat split; assumption || reflexivity.
  - intros resp body env H Hs J L Hflag.
    destruct Hbool as [E | E]; [| exact E]. exfalso.
    apply Hiff in E.
    destruct E as (resp' & body' & env' & v1 & v2 & H' & _ & J' & L' &
                   L1 & T1 & L2 & T2).
    rewrite H in H'. injection H' as <-.
    rewrite J in J'. injection J' as <-.
    rewrite L in L'. injection L' as <-.
    destruct Hflag as [F | [F | [F | F]]];
      rewrite F in *; try discriminate.
    + injection L1 as <-. discriminate T1.
    + injection L2 as <-. discriminate T2.
Qed.

(** C9. A credential set to the empty string fails the environment
    check as an absent one does: the script exits with code 1 and sends
    no HTTP request, and its run is the run with that credential
    unset. *)
Theorem empty_credential_counts_as_missing :
  FIRECRAWL_API_KEY = Some [] \/ OPENAI_API_KEY = Some [] ->
  snd the_script = 1 /\
  requests_sent (fst the_script) = [] /\
  script str_exn http (Some []) OPENAI_API_KEY =
  script str_exn http None OPENAI_API_KEY /\
  script str_exn http FIRECRAWL_API_KEY (Some []) =
  script str_exn http FIRECRAWL_API_KEY None.
Proof.
  intros Hempty. unfold the_script, script, main, check_environment.
  destruct FIRECRAWL_API_KEY as [[| x f] |];
    destruct OPENAI_API_KEY as [[| y o] |];
    destruct Hempty as [H | H]; try discriminate H;
    cbn -[lit str_mul cross]; repeat split; reflexivity.
Qed.

(** C10. With both credentials absent the environment check stops at
    the first one: the run prints the banner and the line naming
    FIRECRAWL_API_KEY and exits with code 1, and no printed line
    mentions OPENAI_API_KEY. *)
Theorem both_missing_names_only_firecrawl :
  check_environment None None =
  ([Print (cross ++ lit " FIRECRAWL_API_KEY not set")], Ret false) /\
  script str_exn http None None =
  ([Print (lit "Fireenrich API Validation");
    Print (str_mul (lit "=") 30);
    Print (cross ++ lit " FIRECRAWL_API_KEY not set")], 1) /\
  (forall line,
     In line (printed (fst (script str_exn http None None))) ->
     str_contains (lit "OPENAI_API_KEY") line = false).
Proof.
  split; [reflexivity |]. split; [reflexivity |].
  intros line Hin. cbn -[lit str_mul cross str_contains] in Hin.
  destruct Hin as [<- | [<- | [<- | []]]]; vm_compute; reflexivity.
Qed.

End Claims.

(* ================================================================== *)
(** ** Runs against the mock servers *)
(* ================================================================== *)

(** All four endpoints well: "Passed: 4/4" and exit code 0. *)
Lemma exit_code_zero_iff_all_passed_witness :
  env_truthy key1 = true /\ env_truthy key2 = true /\
  snd (script mock_str_exn mock_ok key1 key2) = 0 /\
  In (Print (lit "Passed: 4/4")) (fst (script mock_str_exn mock_ok key1 key2)).
Proof.
  split; [reflexivity |]. split; [reflexivity |].
  destruct (exit_code_zero_iff_all_passed mock_str_exn mock_ok key1 key2)
    as (_ & _ & Hrun).
  destruct (Hrun eq_refl eq_refl) as (rs & _ & Hrs & _ & E0 & _ & P).
  subst rs. split.
  - apply E0. intros b Hb. vm_compute in Hb.
    destruct Hb as [<- | [<- | [<- | [<- | []]]]]; reflexivity.
  - exact P.
Defined.

(** No credential and no server: exit code 1 and no request. *)
Lemma missing_credential_aborts_witness :
  (@None pystr = None \/ @None pystr = None) /\
  snd (script mock_str_exn mock_down None None) = 1 /\
  requests_sent (fst (script mock_str_exn mock_down None None)) = [].
Proof.
  split; [left; reflexivity |].
  destruct (missing_credential_aborts mock_str_exn mock_down None None
              (or_introl eq_refl)) as (E & R & _).
  split; [exact E | exact R].
Defined.

(** A server answering 429: the scrape check passes. *)
Lemma scrape_rate_limited_passes_witness :
  mock_status 429 (scrape_request key1) = inr (mk_response 429 None [] []) /\
  status_code (mk_response 429 None [] []) = 429 /\
  result (test_scrape_endpoint mock_str_exn (mock_status 429) key1) = Ret true.
Proof.
  split; [reflexivity |]. split; [reflexivity |].
  apply (scrape_rate_limited_passes mock_str_exn (mock_status 429) key1
           (mk_response 429 None [] [])); reflexivity.
Defined.

(** A server answering 429: the enrich check fails. *)
Lemma other_checks_rate_limited_fail_witness :
  Enrich <> Scrape /\
  mock_status 429 (check_request key1 key2 Enrich) =
    inr (mk_response 429 None [] []) /\
  status_code (mk_response 429 None [] []) = 429 /\
  result (run_check mock_str_exn (mock_status 429) key1 key2 Enrich) =
    Ret false.
Proof.
  split; [discriminate |]. split; [reflexivity |]. split; [reflexivity |].
  apply (other_checks_rate_limited_fail mock_str_exn (mock_status 429)
           key1 key2 Enrich (mk_response 429 None [] []));
    [discriminate | reflexivity | reflexivity].
Defined.

(** A server whose generate-fields endpoint answers 500: that check
    fails, the other three pass. *)
Lemma bad_status_fails_and_run_continues_witness :
  env_truthy key1 = true /\ env_truthy key2 = true /\
  mock_at (lit "/api/generate-fields") (mk_response 500 None [] [])
    (check_request key1 key2 GenerateFields) =
    inr (mk_response 500 None [] []) /\
  status_code (mk_response 500 None [] []) <> 200 /\
  (GenerateFields = Scrape -> status_code (mk_response 500 None [] []) <> 429) /\
  result (run_tests mock_str_exn
            (tests mock_str_exn
               (mock_at (lit "/api/generate-fields")
                  (mk_response 500 None [] [])) key1 key2) []) =
    Ret [true; false; true; true].
Proof.
  split; [reflexivity |]. split; [reflexivity |]. split; [reflexivity |].
  split; [discriminate |]. split; [discriminate |].
  destruct (bad_status_fails_and_run_continues mock_str_exn
              (mock_at (lit "/api/generate-fields")
                 (mk_response 500 None [] []))
              key1 key2 GenerateFields (mk_response 500 None [] [])
              eq_refl eq_refl eq_refl)
    as (_ & _ & R & _); [discriminate | discriminate |].
  exact R.
Defined.

(** A test that raises between two that return. *)
Lemma errors_fail_one_check_only_witness :
  result (run_tests mock_str_exn
            [ret true; raise (RequestException (lit "timed out")); ret true]
            []) =
    Ret [true; false; true] /\
  result (run_check mock_str_exn (mock_down_at (lit "/api/scrape"))
            key1 key2 Scrape) = Ret false /\
  result (run_tests mock_str_exn
            (tests mock_str_exn (mock_down_at (lit "/api/scrape")) key1 key2)
            []) =
    Ret [true; true; false; true].
Proof.
  destruct (errors_fail_one_check_only mock_str_exn
              (mock_down_at (lit "/api/scrape")) key1 key2)
    as (Hloop & Hraise & _ & _ & _ & Hrun).
  split; [| split].
  - apply (Hloop [ret true; raise (RequestException (lit "timed out"));
                  ret true]).
    intros t [<- | [<- | [<- | []]]] code; discriminate.
  - apply (Hraise Scrape (RequestException (lit "Connection refused"))).
    reflexivity.
  - exact Hrun.
Defined.

(** A stream that opens with the start event. *)
Lemma enrich_passes_iff_event_in_first_five_witness :
  mock_ok (enrich_request key1 key2) =
    inr (mk_response 200 None [] [start_event; []]) /\
  status_code (mk_response 200 None [] [start_event; []]) = 200 /\
  result (run_check mock_str_exn mock_ok key1 key2 Enrich) = Ret true.
Proof.
  split; [reflexivity |]. split; [reflexivity |].
  destruct (enrich_passes_iff_event_in_first_five mock_str_exn mock_ok
              key1 key2 (mk_response 200 None [] [start_event; []])
              eq_refl eq_refl) as (_ & _ & Hstart & _).
  apply (Hstart [[]]); [reflexivity |].
  intros line [<- | []]. discriminate.
Defined.

(** The first line of a stream is the start event, the second is not
    UTF-8: a line among the first five begins with "data: ", and the
    enrich check fails. *)
Lemma enrich_event_line_yet_failed :
  mock_const garbled_stream (enrich_request key1 key2) = inr garbled_stream /\
  status_code garbled_stream = 200 /\
  nth_error (iter_lines garbled_stream) 0 = Some start_event /\
  (exists line s,
     In line (firstn 5 (iter_lines garbled_stream)) /\
     utf8_decode line = Some s /\ is_sse_event s = true) /\
  result (test_enrich_endpoint mock_str_exn (mock_const garbled_stream)
            key1 key2) = Ret false.
Proof.
  split; [reflexivity |]. split; [reflexivity |]. split; [reflexivity |].
  split; [| reflexivity].
  eexists start_event, _. split; [now left |]. split; reflexivity.
Qed.

(** The body with both flags true. *)
Lemma check_env_passes_iff_both_flags_witness :
  mock_ok check_env_request =
    inr (json_response 200 (env_status_body (PBool true) (PBool true))) /\
  result (run_check mock_str_exn mock_ok key1 key2 CheckEnv) = Ret true.
Proof.
  split; [reflexivity |].
  destruct (check_env_passes_iff_both_flags mock_str_exn mock_ok key1 key2)
    as (_ & _ & Hboth & _).
  apply (Hboth (json_response 200
                  (env_status_body (PBool true) (PBool true))));
    reflexivity.
Defined.

(** An empty FIRECRAWL_API_KEY: exit code 1 and no request. *)
Lemma empty_credential_counts_as_missing_witness :
  (Some (@nil N) = Some [] \/ key2 = Some []) /\
  snd (script mock_str_exn mock_ok (Some []) key2) = 1 /\
  requests_sent (fst (script mock_str_exn mock_ok (Some []) key2)) = [].
Proof.
  split; [left; reflexivity |].
  destruct (empty_credential_counts_as_missing mock_str_exn mock_ok
              (Some []) key2 (or_introl eq_refl)) as (E & R & _).
  split; [exact E | exact R].
Defined.

(* ================================================================== *)
(** ** Further properties of the checks and of the runner *)
(* ================================================================== *)

Section Further.

Variable str_exn : exn -> pystr.
Variable http : http_client.
Variable FIRECRAWL_API_KEY OPENAI_API_KEY : option pystr.

Let run := run_check str_exn http FIRECRAWL_API_KEY OPENAI_API_KEY.
Let req := check_request FIRECRAWL_API_KEY OPENAI_API_KEY.

Ltac unfold_check :=
  unfold run, req in *; cbn [run_check check_request] in *;
  unfold test_check_env_endpoint, test_generate_fields,
    test_scrape_endpoint, test_enrich_endpoint,
    requests_get, requests_post, send;
  unfold check_env_request, generate_fields_request, scrape_request,
    enrich_request in *;
  cbv zeta.

Ltac eval_step := cbn -[lit str_int Z.eqb Z.ltb read_lines].

(** X1. The generate-fields check passes exactly when the response has
    status 200 and its body is a JSON object with a truthy "success" and,
    under "data", an object whose "fields" item is a string, a list or an
    object (a value [len] accepts); it then prints the length of that
    item. *)
Theorem generate_fields_passes_iff :
  (result (test_generate_fields str_exn http OPENAI_API_KEY) = Ret true <->
   exists resp body success data fields n,
     http (generate_fields_request OPENAI_API_KEY) = inr resp /\
     status_code resp = 200 /\
     json resp = Some (PDict body) /\
     dict_lookup body (lit "success") = Some success /\
     truthy success = true /\
     dict_lookup body (lit "data") = Some (PDict data) /\
     dict_lookup data (lit "fields") = Some fields /\
     py_len fields = ret n) /\
  (forall resp body success data fields n,
     http (generate_fields_request OPENAI_API_KEY) = inr resp ->
     status_code resp = 200 ->
     json resp = Some (PDict body) ->
     dict_lookup body (lit "success") = Some success ->
     truthy success = true ->
     dict_lookup body (lit "data") = Some (PDict data) ->
     dict_lookup data (lit "fields") = Some fields ->
     py_len fields = ret n ->
     trace (test_generate_fields str_exn http OPENAI_API_KEY) =
     [Print (check_header GenerateFields);
      Http (generate_fields_request OPENAI_API_KEY);
      Print (tick ++ lit " /api/generate-fields: Generated " ++
             str_int n ++ lit " fields")]).
Proof.
  split; [split |].
  - unfold_check.
    destruct (http _) as [e | resp] eqn:H; eval_step; [discriminate |].
    destruct (Z.eqb_spec (status_code resp) 200) as [Hs | Hs];
      eval_step; [| discriminate].
    unfold response_json.
    destruct (json resp) as [v |] eqn:J; eval_step; [| discriminate].
    destruct v as [| | | | | | body]; eval_step; try discriminate.
    destruct (dict_lookup body (lit "success")) as [success |] eqn:L;
      eval_step; [| discriminate].
    destruct (truthy success) eqn:T; eval_step; [| discriminate].
    destruct (dict_lookup body (lit "data")) as [dv |] eqn:LD;
      eval_step; [| discriminate].
    destruct dv as [| | | | s | l | data]; eval_step; try discriminate.
    + destruct (str_contains (lit "fields") s); eval_step; discriminate.
    + destruct (existsb (is_str (lit "fields")) l); eval_step; discriminate.
    + destruct (dict_lookup data (lit "fields")) as [fields |] eqn:LF;
        eval_step; [| discriminate].
      destruct fields as [| | | | fs | fl | fd] eqn:F; eval_step;
        try discriminate; intros _;
        exists resp, body, success, data; eexists; eexists;
        repeat split; eassumption || reflexivity.
  - intros (resp & body & success & data & fields & n &
            H & Hs & J & L & T & LD & LF & Hn).
    unfold_check. rewrite H. eval_step. rewrite Hs. eval_step.
    unfold response_json. rewrite J. eval_step. rewrite L. eval_step.
    rewrite T. eval_step. rewrite LD. eval_step. rewrite LF. eval_step.
    rewrite Hn. reflexivity.
  - intros resp body success data fields n H Hs J L T LD LF Hn.
    unfold_check. rewrite H. eval_step. rewrite Hs. eval_step.
    unfold response_json. rewrite J. eval_step. rewrite L. eval_step.
    rewrite T. eval_step. rewrite LD. eval_step. rewrite LF. eval_step.
    rewrite Hn. reflexivity.
Qed.

(** X2. The scrape check passes exactly when the response has status
    429, or has status 200 and its body is a JSON object with a truthy
    "success" whose "data" item holds "content": as a key when it is an
    object, as an item when it is a list, as a substring when it is a
    string. *)
Theorem scrape_passes_iff :
  (result (test_scrape_endpoint str_exn http FIRECRAWL_API_KEY) = Ret true <->
   exists resp,
     http (scrape_request FIRECRAWL_API_KEY) = inr resp /\
     (status_code resp = 429 \/
      status_code resp = 200 /\
      exists body success data,
        json resp = Some (PDict body) /\
        dict_lookup body (lit "success") = Some success /\
        truthy success = true /\
        dict_lookup body (lit "data") = Some data /\
        py_in (lit "content") data = ret true)) /\
  (forall data,
     py_in (lit "content") data = ret true <->
     (exists d v, data = PDict d /\ dict_lookup d (lit "content") = Some v) \/
     (exists l, data = PList l /\ existsb (is_str (lit "content")) l = true) \/
     (exists s, data = PStr s /\ str_contains (lit "content") s = true)).
Proof.
  split; [split |].
  - unfold_check.
    destruct (http _) as [e | resp] eqn:H; eval_step; [discriminate |].
    destruct (Z.eqb_spec (status_code resp) 200) as [Hs | Hs]; eval_step.
    + unfold response_json.
      destruct (json resp) as [v |] eqn:J; eval_step; [| discriminate].
      destruct v as [| | | | | | body]; eval_step; try discriminate.
      destruct (dict_lookup body (lit "success")) as [success |] eqn:L;
        eval_step; [| discriminate].
      destruct (truthy success) eqn:T; eval_step; [| discriminate].
      destruct (dict_lookup body (lit "data")) as [dv |] eqn:LD;
        eval_step; [| discriminate].
      destruct (py_in (lit "content") dv) as [t [[|] | e | c]] eqn:P;
        eval_step; try discriminate.
      intros _. exists resp. split; [reflexivity |]. right.
      split; [exact Hs |]. exists body, success, dv.
      repeat split; try assumption.
      destruct dv as [| | | | s | l | d]; try discriminate P;
        cbn [py_in] in P |- *.
      * injection P as <- P. now rewrite P.
      * injection P as <- P. now rewrite P.
      * destruct (dict_lookup d (lit "content")); [reflexivity |].
        discriminate P.
    + destruct (Z.eqb_spec (status_code resp) 429) as [Hr | Hr];
        eval_step; [| discriminate].
      intros _. exists resp. split; [reflexivity | now left].
  - intros (resp & H & [Hr | (Hs & body & success & data & J & L & T & LD & P)]).
    + unfold_check. rewrite H. eval_step. rewrite Hr. reflexivity.
    + unfold_check. rewrite H. eval_step. rewrite Hs. eval_step.
      unfold response_json. rewrite J. eval_step. rewrite L. eval_step.
      rewrite T. eval_step. rewrite LD. eval_step. rewrite P. reflexivity.
  - intros data. split.
    + destruct data as [| | | | s | l | d]; cbn [py_in]; try discriminate.
      * intros P. injection P as P. right. right. now exists s.
      * intros P. injection P as P. right. left. now exists l.
      * destruct (dict_lookup d (lit "content")) as [v |] eqn:L;
          [| discriminate].
        intros _. left. now exists d, v.
    + intros [(d & v & -> & L) | [(l & -> & E) | (s & -> & E)]];
        cbn [py_in]; [now rewrite L | now rewrite E | now rewrite E].
Qed.

Lemma effects_app (t1 t2 : list event) :
  effects (t1 ++ t2) = effects t1 ++ effects t2.
Proof. apply filter_app. Qed.

Lemma effects_prints (t : list event) :
  forallb is_print t = true -> effects t = [].
Proof.
  induction t as [| ev t IH]; [reflexivity |].
  cbn [forallb]. intros H. apply andb_true_iff in H. destruct H as [Hp Ht].
  unfold effects. cbn [filter]. rewrite Hp. cbn [negb]. now apply IH.
Qed.

Lemma check_trace_split (c : check) :
  exists rest,
    trace (run c) = Print (check_header c) :: Http (req c) :: rest /\
    rest <> [] /\
    forallb is_print rest = true.
Proof.
  assert (Leaf : forall (h : pystr) (r : request) (rest : list event),
             rest <> [] -> forallb is_print rest = true ->
             exists rest',
               Print h :: Http r :: rest = Print h :: Http r :: rest' /\
               rest' <> [] /\ forallb is_print rest' = true)
    by (intros h r rest Hne Hp; now exists rest).
  destruct c; unfold_check; unfold check_header, check_path;
    (destruct (http _) as [e | resp];
     [eval_step; apply Leaf; [discriminate | reflexivity] |]).
  - unfold response_json, py_get.
    repeat (eval_step;
            match goal with
            | |- context [match ?x with _ => _ end] =>
              lazymatch x with
              | context [match _ with _ => _ end] => fail
              | _ => destruct x eqn:?
              end
            end);
      eval_step; apply Leaf; (discriminate || reflexivity).
  - unfold response_json, py_get, py_in, py_getitem, py_len.
    repeat (eval_step;
            match goal with
            | |- context [match ?x with _ => _ end] =>
              lazymatch x with
              | context [match _ with _ => _ end] => fail
              | _ => destruct x eqn:?
              end
            end);
      eval_step; apply Leaf; (discriminate || reflexivity).
  - unfold response_json, py_get, py_in.
    repeat (eval_step;
            match goal with
            | |- context [match ?x with _ => _ end] =>
              lazymatch x with
              | context [match _ with _ => _ end] => fail
              | _ => destruct x eqn:?
              end
            end);
      eval_step; apply Leaf; (discriminate || reflexivity).
  - eval_step. destruct (status_code resp =? 200).
    + destruct (read_lines_cases (iter_lines resp) 0 [])
        as [(ls & E) | (l & E)]; rewrite E; eval_step.
      * destruct (0 <? Z.of_nat (List.length (filter is_sse_event ls)));
          eval_step; apply Leaf; (discriminate || reflexivity).
      * apply Leaf; (discriminate || reflexivity).
    + eval_step. apply Leaf; (discriminate || reflexivity).
Qed.

(** X3. Whatever the server does, a check prints its header, sends its
    one request, and then only prints, at least one line: it sends no
    second request and does not pause, and it ends by returning a
    boolean. *)
Theorem check_trace_shape (c : check) :
  (exists rest,
     trace (run c) = Print (check_header c) :: Http (req c) :: rest /\
     rest <> [] /\
     forallb is_print rest = true) /\
  effects (trace (run c)) = [Http (req c)] /\
  requests_sent (trace (run c)) = [req c] /\
  exists b, result (run c) = Ret b.
Proof.
  destruct (check_trace_split c) as (rest & E & Hne & Hp).
  destruct (check_returns str_exn http FIRECRAWL_API_KEY OPENAI_API_KEY c)
    as (b & Hb & Hr).
  split; [now exists rest |]. split; [| split; [exact Hr | now exists b]].
  rewrite E.
  change (Print (check_header c) :: Http (req c) :: rest)
    with ([Print (check_header c); Http (req c)] ++ rest).
  rewrite effects_app, (effects_prints rest Hp). reflexivity.
Qed.

(** X4. On a status that fails the check (not 200, and not 429 on the
    scrape check) the check prints its header, sends the request, prints
    the status code and, except for check-env, prints the text of the
    response. *)
Theorem bad_status_diagnostic (c : check) (resp : response) :
  http (req c) = inr resp ->
  status_code resp <> 200 ->
  (c = Scrape -> status_code resp <> 429) ->
  trace (run c) =
  [Print (check_header c);
   Http (req c);
   Print (cross ++ lit " " ++ check_path c ++ lit ": HTTP " ++
          str_int (status_code resp))] ++
  match c with
  | CheckEnv => []
  | _ => [Print (text resp)]
  end.
Proof.
  intros H H200 H429.
  destruct c; unfold_check; rewrite H; eval_step;
    destruct (Z.eqb_spec (status_code resp) 200); try contradiction;
    try reflexivity.
  destruct (Z.eqb_spec (status_code resp) 429); [| reflexivity].
  exfalso. now apply H429.
Qed.

(** X5. When the HTTP client raises, the check prints its header, sends
    the request, and prints one line with the text of the exception. *)
Theorem client_error_diagnostic (c : check) (e : exn) :
  http (req c) = inl e ->
  trace (run c) =
  [Print (check_header c);
   Http (req c);
   Print (cross ++ lit " " ++ check_path c ++ lit ": " ++ str_exn e)].
Proof.
  intros H. destruct c; unfold_check; rewrite H; reflexivity.
Qed.

(** X6. With both credentials set, the requests and the pauses of a run
    alternate: each of the four requests, in order, is followed by one
    pause of one second, the last one included, and nothing else is sent
    or waited for. *)
Theorem requests_and_pauses_alternate :
  env_truthy FIRECRAWL_API_KEY = true ->
  env_truthy OPENAI_API_KEY = true ->
  effects (fst (script str_exn http FIRECRAWL_API_KEY OPENAI_API_KEY)) =
  [Http (req CheckEnv); Sleep 1;
   Http (req GenerateFields); Sleep 1;
   Http (req Scrape); Sleep 1;
   Http (req Enrich); Sleep 1].
Proof.
  intros HF HO.
  assert (Hloop :
    effects (trace (run_tests str_exn
               (tests str_exn http FIRECRAWL_API_KEY OPENAI_API_KEY) [])) =
    [Http (req CheckEnv); Sleep 1; Http (req GenerateFields); Sleep 1;
     Http (req Scrape); Sleep 1; Http (req Enrich); Sleep 1]).
  { destruct (run_tests_spec str_exn
                (tests str_exn http FIRECRAWL_API_KEY OPENAI_API_KEY) [])
      as [_ T].
    { intros t Ht code.
      rewrite (tests_are_checks str_exn http FIRECRAWL_API_KEY OPENAI_API_KEY)
        in Ht.
      apply in_map_iff in Ht. destruct Ht as (c & <- & _).
      destruct (check_returns str_exn http FIRECRAWL_API_KEY OPENAI_API_KEY c)
        as (b & Hb & _).
      rewrite Hb. discriminate. }
    rewrite T.
    rewrite (tests_are_checks str_exn http FIRECRAWL_API_KEY OPENAI_API_KEY).
    unfold all_checks, loop_events. cbn [map flat_map].
    assert (Hc : forall c, exists rest b,
               run_check str_exn http FIRECRAWL_API_KEY OPENAI_API_KEY c =
               (Print (check_header c) :: Http (req c) :: rest, Ret b) /\
               effects rest = []).
    { intros c. destruct (check_trace_split c) as (rest & Et & _ & Hp).
      destruct (check_returns str_exn http FIRECRAWL_API_KEY OPENAI_API_KEY c)
        as (b & Hb & _).
      exists rest, b. split; [| now apply effects_prints].
      unfold run, trace, result in *.
      destruct (run_check str_exn http FIRECRAWL_API_KEY OPENAI_API_KEY c)
        as [t o]. cbn [fst snd] in *. now subst. }
    destruct (Hc CheckEnv) as (r1 & b1 & E1 & P1).
    destruct (Hc GenerateFields) as (r2 & b2 & E2 & P2).
    destruct (Hc Scrape) as (r3 & b3 & E3 & P3).
    destruct (Hc Enrich) as (r4 & b4 & E4 & P4).
    rewrite E1, E2, E3, E4. cbn [trace result fst snd].
    rewrite !effects_app.
    change (effects (Print (check_header CheckEnv) ::
                     Http (req CheckEnv) :: r1))
      with (Http (req CheckEnv) :: effects r1).
    change (effects (Print (check_header GenerateFields) ::
                     Http (req GenerateFields) :: r2))
      with (Http (req GenerateFields) :: effects r2).
    change (effects (Print (check_header Scrape) :: Http (req Scrape) :: r3))
      with (Http (req Scrape) :: effects r3).
    change (effects (Print (check_header Enrich) :: Http (req Enrich) :: r4))
      with (Http (req Enrich) :: effects r4).
    rewrite P1, P2, P3, P4. reflexivity. }
  unfold script.
  rewrite (main_with_credentials str_exn http _ _ HF HO). cbv zeta.
  destruct (summary_spec
              (map (check_passed str_exn http FIRECRAWL_API_KEY
                      OPENAI_API_KEY) all_checks)) as (last & E).
  rewrite E. cbn [result trace fst snd].
  destruct (_ =? _); cbn [fst]; rewrite !effects_app, Hloop; reflexivity.
Qed.

(** X7. Blank lines use up the five lines the enrich check looks at: when
    each of the first five lines of a 200 response is empty (an empty
    body included) the check fails, whatever follows. *)
Theorem blank_lines_use_up_the_window (resp : response) :
  http (enrich_request FIRECRAWL_API_KEY OPENAI_API_KEY) = inr resp ->
  status_code resp = 200 ->
  (forall line, In line (firstn 5 (iter_lines resp)) -> line = []) ->
  result (test_enrich_endpoint str_exn http
            FIRECRAWL_API_KEY OPENAI_API_KEY) = Ret false.
Proof.
  intros H Hs Hblank.
  pose proof (enrich_200_passes str_exn http _ _ resp H Hs) as Hiff.
  destruct (check_returns str_exn http FIRECRAWL_API_KEY OPENAI_API_KEY
              Enrich) as ([|] & Hb & _); cbn [run_check] in Hb;
    [| exact Hb].
  exfalso. apply Hiff in Hb. destruct Hb as (_ & line & s & Hl & Hd & Hev).
  rewrite (Hblank line Hl) in Hd. cbn in Hd. injection Hd as <-.
  discriminate Hev.
Qed.

Lemma utf8_decode_ascii (line : pybytes) :
  is_ascii line = true -> utf8_decode line = Some (map Byte.to_N line).
Proof.
  induction line as [| b line IH]; [reflexivity |].
  unfold is_ascii. cbn [forallb]. intros H.
  apply andb_true_iff in H. destruct H as [Hb Hl].
  cbn [utf8_decode map]. cbv zeta. rewrite Hb.
  unfold is_ascii in IH. rewrite (IH Hl). reflexivity.
Qed.

Lemma byte_eqb_to_N (a b : byte) :
  N.eqb (Byte.to_N a) (Byte.to_N b) = Byte.eqb a b.
Proof.
  destruct (Byte.eqb a b) eqn:E.
  - apply Byte.byte_dec_bl in E. subst. apply N.eqb_refl.
  - apply Byte.eqb_false in E. apply N.eqb_neq. intros Heq.
    apply E. pose proof (Byte.of_to_N a) as Ha.
    pose proof (Byte.of_to_N b) as Hb. rewrite Heq in Ha. congruence.
Qed.

Lemma startswith_bytes (prefix : pybytes) : forall line,
  startswith (map Byte.to_N line) (map Byte.to_N prefix) =
  bytes_startswith line prefix.
Proof.
  induction prefix as [| p prefix IH]; intros line;
    destruct line as [| b line]; try reflexivity.
  cbn [map startswith bytes_startswith].
  now rewrite byte_eqb_to_N, IH.
Qed.

(** X8. On a 200 response whose first five lines are ASCII, the enrich
    check passes exactly when one of those lines begins with the bytes
    of "data: ". *)
Theorem ascii_stream_criterion (resp : response) :
  http (enrich_request FIRECRAWL_API_KEY OPENAI_API_KEY) = inr resp ->
  status_code resp = 200 ->
  (forall line, In line (firstn 5 (iter_lines resp)) ->
                is_ascii line = true) ->
  (result (test_enrich_endpoint str_exn http
             FIRECRAWL_API_KEY OPENAI_API_KEY) = Ret true <->
   exists line,
     In line (firstn 5 (iter_lines resp)) /\
     bytes_startswith line (list_byte_of_string "data: ") = true).
Proof.
  intros H Hs Hascii.
  rewrite (enrich_200_passes str_exn http _ _ resp H Hs). split.
  - intros (_ & line & s & Hl & Hd & Hev). exists line. split; [exact Hl |].
    rewrite (utf8_decode_ascii line (Hascii line Hl)) in Hd.
    injection Hd as <-. unfold is_sse_event in Hev.
    rewrite <- startswith_bytes. exact Hev.
  - intros (line & Hl & Hp). split.
    + intros l Hin. rewrite (utf8_decode_ascii l (Hascii l Hin)).
      discriminate.
    + exists line, (map Byte.to_N line). split; [exact Hl |].
      split; [apply utf8_decode_ascii; now apply Hascii |].
      unfold is_sse_event. rewrite <- startswith_bytes in Hp. exact Hp.
Qed.

(** X9. The loop of [main] does not contain [SystemExit]: when a test
    exits, the loop ends there with that exit code, after the turns of
    the tests before it; the pause of that turn and the later tests do
    not run. *)
Theorem runner_stops_at_exit (pre post : list (M bool)) (t : M bool)
    (code : Z) :
  (forall t', In t' pre -> forall c, result t' <> Exit c) ->
  result t = Exit code ->
  forall acc,
    result (run_tests str_exn (pre ++ t :: post) acc) = Exit code /\
    trace (run_tests str_exn (pre ++ t :: post) acc) =
    flat_map (loop_events str_exn) pre ++ trace t.
Proof.
  intros Hpre Ht. induction pre as [| p pre IH]; intros acc.
  - destruct t as [tt [b | e | c]]; cbn [result snd] in Ht;
      try discriminate Ht. injection Ht as ->.
    cbn. rewrite ?app_nil_r. split; reflexivity.
  - assert (Hpre' : forall t', In t' pre -> forall c, result t' <> Exit c)
      by (intros t' Hin; apply Hpre; now right).
    assert (Hp : forall c, result p <> Exit c) by (apply Hpre; now left).
    specialize (IH Hpre').
    cbn [app run_tests flat_map].
    destruct p as [tp [b | e | c]].
    + destruct (IH (acc ++ [b])) as [R T].
      cbn -[lit run_tests loop_events].
      destruct (run_tests str_exn (pre ++ t :: post) (acc ++ [b]))
        as [t' o'].
      cbn [result trace fst snd] in R, T |- *. subst. split; [reflexivity |].
      unfold loop_events. cbn [result trace fst snd].
      rewrite ?app_nil_r, <- ?app_assoc. reflexivity.
    + destruct (IH (acc ++ [false])) as [R T].
      cbn -[lit run_tests loop_events].
      destruct (run_tests str_exn (pre ++ t :: post) (acc ++ [false]))
        as [t' o'].
      cbn [result trace fst snd] in R, T |- *. subst. split; [reflexivity |].
      unfold loop_events. cbn [result trace fst snd].
      rewrite <- ?app_assoc. reflexivity.
    + now destruct (Hp c).
Qed.

(** X10. When a credential is unset or empty the whole run is three
    printed lines: the banner, the rule, and the line naming the first
    such credential; the exit code is 1. *)
Theorem failed_environment_check_run :
  env_truthy FIRECRAWL_API_KEY = false \/
  env_truthy OPENAI_API_KEY = false ->
  script str_exn http FIRECRAWL_API_KEY OPENAI_API_KEY =
  ([Print (lit "Fireenrich API Validation");
    Print (str_mul (lit "=") 30);
    Print (cross ++ lit " " ++ first_unusable FIRECRAWL_API_KEY ++
           lit " not set")],
   1).
Proof.
  intros Hbad. unfold script, main, check_environment, first_unusable.
  destruct (env_truthy FIRECRAWL_API_KEY); [| reflexivity].
  destruct Hbad as [Hbad | Hbad]; [discriminate |].
  rewrite Hbad. reflexivity.
Qed.

(** X11. On a 200 response whose body is a JSON object with a missing or
    falsy "success", the generate-fields and scrape checks do not look at
    "data": they print "Unexpected response format" and nothing else
    after the request, whatever "data" holds. *)
Theorem falsy_success_skips_data (c : check) (resp : response)
    (body : list (pystr * pyval)) :
  c = GenerateFields \/ c = Scrape ->
  http (req c) = inr resp ->
  status_code resp = 200 ->
  json resp = Some (PDict body) ->
  (dict_lookup body (lit "success") = None \/
   exists v, dict_lookup body (lit "success") = Some v /\ truthy v = false) ->
  run c =
  ([Print (check_header c);
    Http (req c);
    Print (cross ++ lit " " ++ check_path c ++
           lit ": Unexpected response format")],
   Ret false).
Proof.
  intros Hc H Hs J Hsuccess.
  destruct Hc as [-> | ->]; unfold_check; rewrite H; eval_step;
    rewrite Hs; eval_step; unfold response_json; rewrite J; eval_step;
    destruct Hsuccess as [L | (v & L & T)]; rewrite L; eval_step;
    rewrite ?T; reflexivity.
Qed.

End Further.

(** *** Runs for the further properties *)

(** The well-formed body of the generate-fields endpoint. *)
Lemma generate_fields_passes_iff_witness :
  result (test_generate_fields mock_str_exn mock_ok key2) = Ret true /\
  In (Print (tick ++ lit " /api/generate-fields: Generated 2 fields"))
     (trace (test_generate_fields mock_str_exn mock_ok key2)).
Proof.
  destruct (generate_fields_passes_iff mock_str_exn mock_ok key2)
    as (Hiff & Htrace).
  split.
  - apply Hiff. do 6 eexists.
    repeat split; reflexivity.
  - rewrite (Htrace _ _ _ _ _ 2 eq_refl eq_refl eq_refl eq_refl eq_refl
               eq_refl eq_refl eq_refl).
    right. right. left. reflexivity.
Defined.

(** A "data" item that is a string mentioning content passes the scrape
    check. *)
Lemma scrape_passes_iff_witness :
  result (test_scrape_endpoint mock_str_exn
            (mock_at (lit "/api/scrape") scrape_text_body) key1) = Ret true.
Proof.
  destruct (scrape_passes_iff mock_str_exn
              (mock_at (lit "/api/scrape") scrape_text_body) key1)
    as (Hiff & _).
  apply Hiff. exists scrape_text_body. split; [reflexivity |].
  right. split; [reflexivity |].
  do 3 eexists. repeat split; reflexivity.
Defined.

(** The enrich endpoint answers 500 with a body. *)
Lemma bad_status_diagnostic_witness :
  mock_const (mk_response 500 None (lit "Internal Server Error") [])
    (check_request key1 key2 Enrich) =
    inr (mk_response 500 None (lit "Internal Server Error") []) /\
  trace (run_check mock_str_exn
           (mock_const (mk_response 500 None (lit "Internal Server Error") []))
           key1 key2 Enrich) =
  [Print (check_header Enrich);
   Http (check_request key1 key2 Enrich);
   Print (cross ++ lit " /api/enrich: HTTP 500");
   Print (lit "Internal Server Error")].
Proof.
  split; [reflexivity |].
  apply (bad_status_diagnostic mock_str_exn
           (mock_const (mk_response 500 None (lit "Internal Server Error") []))
           key1 key2 Enrich
           (mk_response 500 None (lit "Internal Server Error") []));
    [reflexivity | discriminate | discriminate].
Defined.

(** No server listens. *)
Lemma client_error_diagnostic_witness :
  mock_down check_env_request =
    inl (RequestException (lit "Connection refused")) /\
  trace (run_check mock_str_exn mock_down key1 key2 CheckEnv) =
  [Print (check_header CheckEnv);
   Http check_env_request;
   Print (cross ++ lit " /api/check-env: Connection refused")].
Proof.
  split; [reflexivity |].
  apply (client_error_diagnostic mock_str_exn mock_down key1 key2 CheckEnv
           (RequestException (lit "Connection refused"))).
  reflexivity.
Defined.

(** A run against a dead server still sends four requests and pauses
    four times. *)
Lemma requests_and_pauses_alternate_witness :
  env_truthy key1 = true /\ env_truthy key2 = true /\
  List.length (effects (fst (script mock_str_exn mock_down key1 key2))) =
  8%nat.
Proof.
  split; [reflexivity |]. split; [reflexivity |].
  rewrite (requests_and_pauses_alternate mock_str_exn mock_down key1 key2
             eq_refl eq_refl).
  reflexivity.
Defined.

(** Five keep-alive lines before the first event. *)
Lemma blank_lines_use_up_the_window_witness :
  mock_const blank_then_event (enrich_request key1 key2) =
    inr blank_then_event /\
  status_code blank_then_event = 200 /\
  nth_error (iter_lines blank_then_event) 5 = Some start_event /\
  result (test_enrich_endpoint mock_str_exn (mock_const blank_then_event)
            key1 key2) = Ret false.
Proof.
  split; [reflexivity |]. split; [reflexivity |]. split; [reflexivity |].
  apply (blank_lines_use_up_the_window mock_str_exn
           (mock_const blank_then_event) key1 key2 blank_then_event);
    [reflexivity | reflexivity |].
  intros line Hin. cbn in Hin.
  destruct Hin as [<- | [<- | [<- | [<- | [<- | []]]]]]; reflexivity.
Defined.

(** The stream of the well-behaved server is ASCII and opens with an
    event. *)
Lemma ascii_stream_criterion_witness :
  mock_ok (enrich_request key1 key2) =
    inr (mk_response 200 None [] [start_event; []]) /\
  is_ascii start_event = true /\
  result (test_enrich_endpoint mock_str_exn mock_ok key1 key2) = Ret true.
Proof.
  split; [reflexivity |]. split; [reflexivity |].
  apply (ascii_stream_criterion mock_str_exn mock_ok key1 key2
           (mk_response 200 None [] [start_event; []]));
    [reflexivity | reflexivity | |].
  - intros line Hin. cbn in Hin.
    destruct Hin as [<- | [<- | []]]; reflexivity.
  - exists start_event. split; [now left | reflexivity].
Defined.

(** A test that exits between two that return. *)
Lemma runner_stops_at_exit_witness :
  result (run_tests mock_str_exn [ret true; sys_exit 3; ret true] []) =
    Exit 3 /\
  trace (run_tests mock_str_exn [ret true; sys_exit 3; ret true] []) =
    [Sleep 1].
Proof.
  apply (runner_stops_at_exit mock_str_exn [ret true] [ret true]
           (sys_exit 3) 3).
  - intros t' [<- | []] c. discriminate.
  - reflexivity.
Defined.

(** An empty FIRECRAWL_API_KEY beside a usable OPENAI_API_KEY. *)
Lemma failed_environment_check_run_witness :
  (env_truthy (Some []) = false \/ env_truthy key2 = false) /\
  script mock_str_exn mock_ok (Some []) key2 =
  ([Print (lit "Fireenrich API Validation");
    Print (str_mul (lit "=") 30);
    Print (cross ++ lit " FIRECRAWL_API_KEY not set")], 1).
Proof.
  split; [left; reflexivity |].
  apply (failed_environment_check_run mock_str_exn mock_ok (Some []) key2).
  left. reflexivity.
Defined.

(** The scrape endpoint reports a failure and puts a number under
    "data". *)
Lemma falsy_success_skips_data_witness :
  result (run_check mock_str_exn
            (mock_at (lit "/api/scrape")
               (json_response 200
                  (PDict [(lit "success", PBool false);
                          (lit "data", PInt 5)])))
            key1 key2 Scrape) = Ret false /\
  printed (trace (run_check mock_str_exn
                    (mock_at (lit "/api/scrape")
                       (json_response 200
                          (PDict [(lit "success", PBool false);
                                  (lit "data", PInt 5)])))
                    key1 key2 Scrape)) =
  [check_header Scrape;
   cross ++ lit " /api/scrape: Unexpected response format"].
Proof.
  rewrite (falsy_success_skips_data mock_str_exn
             (mock_at (lit "/api/scrape")
                (json_response 200
                   (PDict [(lit "success", PBool false);
                           (lit "data", PInt 5)])))
             key1 key2 Scrape
             (json_response 200
                (PDict [(lit "success", PBool false); (lit "data", PInt 5)]))
             [(lit "success", PBool false); (lit "data", PInt 5)]
             (or_intror eq_refl) eq_refl eq_refl eq_refl
             (or_intror (ex_intro _ (PBool false) (conj eq_refl eq_refl)))).
  split; reflexivity.
Defined.
